(** * AI Tutor backend (main.py): the /api/ask handler and its SSE relay

    A shallow embedding of [upload_file_to_gemini], [ask_question] and the
    nested generator [stream] of main.py.

    - The JSON body is taken at the types the interface gives it: a text
      field is missing, [null] or a string, and [files] is missing, [null] or
      a list of objects whose three fields are each missing, [null] or a
      string.
    - Python [str] values are strings of 8-bit characters.  [upper], [lower]
      and [strip] follow Python on the ASCII range (code points below 128);
      characters above it are left alone.
    - Library functions the handler calls but does not define ([json.dumps],
      [base64.b64decode], [bytes.decode], [types.Part.from_bytes],
      [types.Part.from_uri]) and the remote service behind [client] are
      parameters of the model.
    - The calls made on [client] and the frames the generator yields are
      recorded, in order, in one event log threaded through the handler. *)

From Stdlib Require Import String Ascii Strings.Byte List Bool Arith Lia.
From stdpp Require Import base list strings gmap.


(** ** Python text *)

Module Py.

Definition nl : string := String (ascii_of_nat 10) EmptyString.
Definition dquote : string := String (ascii_of_nat 34) EmptyString.

(** [str.isspace] on one ASCII character: TAB..CR, FS..US and the space. *)
Definition isspace (c : ascii) : bool :=
  let n := nat_of_ascii c in
  (((9 <=? n) && (n <=? 13)) || ((28 <=? n) && (n <=? 32)))%nat.

Fixpoint lstrip (s : string) : string :=
  match s with
  | EmptyString => EmptyString
  | String c r => if isspace c then lstrip r else s
  end.

Fixpoint rstrip (s : string) : string :=
  match s with
  | EmptyString => EmptyString
  | String c r =>
      match rstrip r with
      | EmptyString => if isspace c then EmptyString else String c EmptyString
      | r' => String c r'
      end
  end.

(** [s.strip()] *)
Definition strip (s : string) : string := lstrip (rstrip s).

Definition upper_char (c : ascii) : ascii :=
  let n := nat_of_ascii c in
  if ((97 <=? n) && (n <=? 122))%nat then ascii_of_nat (n - 32) else c.

Definition lower_char (c : ascii) : ascii :=
  let n := nat_of_ascii c in
  if ((65 <=? n) && (n <=? 90))%nat then ascii_of_nat (n + 32) else c.

Fixpoint map_chars (f : ascii -> ascii) (s : string) : string :=
  match s with
  | EmptyString => EmptyString
  | String c r => String (f c) (map_chars f r)
  end.

(** [s.upper()], [s.lower()] *)
Definition upper : string -> string := map_chars upper_char.
Definition lower : string -> string := map_chars lower_char.

(** [s.startswith(p)] *)
Fixpoint startswith (p s : string) : bool :=
  match p, s with
  | EmptyString, _ => true
  | String _ _, EmptyString => false
  | String a p', String b s' => Ascii.eqb a b && startswith p' s'
  end.

(** [needle in hay] for two strings. *)
Fixpoint contains (needle hay : string) : bool :=
  startswith needle hay ||
  match hay with
  | EmptyString => false
  | String _ r => contains needle r
  end.

(** A Python value that is [None] or a [str]. *)
Definition value := option string.

(** [bool(v)] *)
Definition truthy (v : value) : bool :=
  match v with
  | None => false
  | Some s => negb (String.eqb s "")
  end.

(** [v or d] where [d] is a string. *)
Definition or_else (v : value) (d : string) : string :=
  match v with
  | Some s => if String.eqb s "" then d else s
  | None => d
  end.

(** [str(v)], as an f-string renders [{v}]. *)
Definition str (v : value) : string :=
  match v with
  | None => "None"
  | Some s => s
  end.

(** An entry of a JSON object as the handler can tell it apart: the key is
    missing, its value is [null], or its value is a string. *)
Inductive entry := Absent | Null | Text (s : string).

(** [d.get(key)] *)
Definition get (e : entry) : value :=
  match e with
  | Text s => Some s
  | Absent | Null => None
  end.

(** [d.get(key, default)] *)
Definition get_default (e : entry) (default : string) : value :=
  match e with
  | Absent => Some default
  | Null => None
  | Text s => Some s
  end.

(** What a call that can raise gives: its value, or the message [str(e)] of
    the [Exception] it raised. *)
Inductive result (A : Type) := Ok (a : A) | Raise (msg : string).
Arguments Ok {A} a.
Arguments Raise {A} msg.

End Py.

Import Py.


(** ** Data model *)

(** One element of [payload["files"]]: a JSON object [{name, mimeType, base64}]. *)
Record Attachment := {
  f_name : entry;
  f_mimeType : entry;
  f_base64 : entry;
}.

(** The JSON body of POST /api/ask.  [p_files] is [None] when the key is
    missing or [null]. *)
Record Payload := {
  p_board : entry;
  p_class_level : entry;
  p_subject : entry;
  p_chapter : entry;
  p_question : entry;
  p_model : entry;
  p_files : option (list Attachment);
}.

(** [types.Part]: what [from_uri], [from_bytes] and [from_text] build. *)
Inductive Part :=
| from_uri (uri mime_type : string)
| from_bytes (data : list byte) (mime_type : string)
| from_text (text : string).

(** The file object [client.files.upload] and [client.files.get] return. *)
Record File := {
  file_state_name : string;
  file_uri : string;
  file_name : string;
}.

(** What one [next(response_stream, None)] followed by [chunk.text] gives
    while the stream is not exhausted: a chunk whose text is [None] or a
    string, or an exception. *)
Inductive pull :=
| Chunk (text : value)
| Raises (chunk_error : string).

(** Calls on [client]. *)
Inductive call :=
| files_upload (raw_bytes : list byte) (mime_type : string) (display_name : value)
| files_get (name : string)
| files_delete (name : string)
| generate_content_stream (model : string) (contents : list Part).

(** What the request does that can be seen from outside, in order. *)
Inductive event :=
| Called (c : call)
| Yielded (frame : string).

(** The remote service: the answer to a call is a function of everything that
    happened up to it, the call itself being the last event of the log. *)
Record Client := {
  upload_answer : list event -> result File;
  get_answer : list event -> result File;
  delete_answer : list event -> result unit;
  generate_answer : list event -> result (list pull);
}.

(** What [ask_question] gives back to the framework.  A [StreamingResponse]
    holds the generator [stream()], a closure over [model_name], [contents]
    and [uploaded_file_uris]. *)
Inductive response :=
| HTTPException (status_code : nat) (detail : string)
| StreamingResponse (model_name : string) (contents : list Part)
    (uploaded_file_uris : list string).

(** ** Computations that extend the event log *)

Definition M (A : Type) : Type := list event -> A * list event.

Definition ret {A} (a : A) : M A := fun log => (a, log).

Definition bind {A B} (m : M A) (k : A -> M B) : M B :=
  fun log => let '(a, log') := m log in k a log'.

Notation "'let*' x ':=' m 'in' k" := (bind m (fun x => k))
  (at level 10, x name, m at level 100, k at level 200, only parsing).
Notation "m >>> k" := (bind m (fun _ => k))
  (at level 20, k at level 200, only parsing).

(** [yield frame] *)
Definition yield (frame : string) : M unit :=
  fun log => (tt, log ++ [Yielded frame]).

(** A call on the client: log it, then look up the answer. *)
Definition invoke {A} (answer : list event -> result A) (c : call) : M (result A) :=
  fun log => let log' := log ++ [Called c] in (answer log', log').

Definition ALLOWED_BOARDS : gset string := {[ "ICSE"; "CBSE"; "SSLC" ]}.

Definition SUPPORTED_MIME_TYPES : gset string :=
  {[ "image/jpeg"; "image/png"; "image/gif"; "image/webp";
     "application/pdf"; "text/plain" ]}.

(** ** The handler *)

Section Handler.

(** The remote service behind the module-level [client]. *)
Variable client : Client.

(** [json.dumps] on a [str]. *)
Variable json_dumps : string -> string.

(** [base64.b64decode]: the bytes, or the exception it raises. *)
Variable b64decode : string -> result (list byte).

(** [raw_bytes.decode("utf-8", errors="replace")]: with [errors="replace"]
    the codec substitutes U+FFFD and has no failing case. *)
Variable decode_utf8_replace : list byte -> string.

(** [None] when [types.Part.from_bytes(data, mime_type)] builds the part,
    the message of the exception it raises otherwise. *)
Variable from_bytes_error : list byte -> string -> option string.

Definition Part_from_bytes (data : list byte) (mime_type : string) : result Part :=
  match from_bytes_error data mime_type with
  | Some e => Raise e
  | None => Ok (from_bytes data mime_type)
  end.

(** [None] when [types.Part.from_uri(uri=uri, mime_type=mime_type)] builds
    the part, the message of the exception it raises otherwise (a keyword the
    installed SDK does not know, a value it refuses). *)
Variable from_uri_error : string -> string -> option string.

Definition Part_from_uri (uri mime_type : string) : result Part :=
  match from_uri_error uri mime_type with
  | Some e => Raise e
  | None => Ok (from_uri uri mime_type)
  end.

(** *** upload_file_to_gemini *)

Definition max_attempts : nat := 30.

(** The [for attempt in range(max_attempts)] loop and the timeout after it.
    ([asyncio.sleep(1)] between two polls leaves no event.) *)
Fixpoint poll (attempts : nat) (name : value) (uploaded : File)
  : M (result (string * string)) :=
  match attempts with
  | O => ret (Raise ("File processing timeout for: " +:+ str name))
  | S attempts' =>
      if String.eqb (file_state_name uploaded) "ACTIVE" then
        ret (Ok (file_uri uploaded, file_name uploaded))
      else if String.eqb (file_state_name uploaded) "FAILED" then
        ret (Raise ("File processing failed: " +:+ str name))
      else
        let* r := invoke (get_answer client) (files_get (file_name uploaded)) in
        match r with
        | Raise e => ret (Raise e)
        | Ok uploaded' => poll attempts' name uploaded'
        end
  end.

Definition upload_file_to_gemini (raw_bytes : list byte) (mime_type : string)
    (name : value) : M (result (string * string)) :=
  let* r := (let* u := invoke (upload_answer client)
                (files_upload raw_bytes mime_type name) in
        match u with
        | Raise e => ret (Raise e)
        | Ok uploaded => poll max_attempts name uploaded
        end) in
  match r with
  | Ok handle => ret (Ok handle)
  | Raise e => ret (Raise ("Failed to upload " +:+ str name +:+ ": " +:+ e))
  end.

(** *** ask_question: the prompt *)

Definition default_question : string :=
  "Please analyse this and answer any questions based on it.".

(** The f-string of [prompt_text], cut at [{question}]. *)
Definition prompt_head (board class_level subject chapter : string) : string :=
  "
You are an expert " +:+
    board +:+
    " Class " +:+
    class_level +:+
    " teacher.

Board: " +:+
    board +:+
    "
Subject: " +:+
    subject +:+
    "
Chapter: " +:+
    chapter +:+
    "

A student from Class " +:+
    class_level +:+
    " has asked the following question:

" +:+
    dquote +:+
    dquote +:+
    dquote.

Definition prompt_tail (board class_level subject : string) : string :=
  dquote +:+
    dquote +:+
    dquote +:+
    "

Your task is to answer strictly according to the " +:+
    board +:+
    " syllabus and exam pattern.

REQUIREMENTS:
- Explain the concept clearly and correctly.
- Use only " +:+
    board +:+
    " Class " +:+
    class_level +:+
    " level methods.
- Show all important steps and working where required (Maths, Physics, Chemistry).
- Keep the explanation concise but conceptually strong.
- Mention a common mistake ONLY if it is relevant.
- Focus on how answers are expected in board exams.

STRICT ANSWERING RULES (VERY IMPORTANT):

1. Use PLAIN TEXT ONLY.
   - NO Markdown, NO HTML, NO LaTeX, NO emojis

2. Allowed mathematical symbols ONLY:
   - Degrees: 30°
   - Fractions: 1/2
   - Equals sign: =
   - Plus or minus: + −
   - Square root: √

3. Write mathematics in NORMAL SCHOOL STYLE.
   Example: sin 30° = 1/2

4. Keep the answer:
   - SHORT
   - CLEAR
   - CONCEPTUALLY DEEP
   - STRICTLY exam-oriented

5. IMPORTANT HIGHLIGHTING RULES:
   - Highlight important formulas, definitions, or final answers
   - Use ONLY SINGLE ASTERISKS like *this*
   - NEVER use double asterisks **
   - The MAIN FINAL RESULT must be inside single asterisks

6. Language must be:
   - Simple
   - Calm
   - Clear
   - Suitable for Class " +:+
    class_level +:+
    " students

7. While giving output, be friendly and conversational with students.

8. BOARD ALIGNMENT: Answer ONLY what is officially taught at Class " +:+
    class_level +:+
    " level for " +:+
    board +:+
    ".

9. EXAM ANSWER EXPECTATION: Frame the answer exactly how a board examiner expects it.

10. STEP MARKING AWARENESS: Write steps in the correct logical order used for marking.

11. DEFINITIONS RULE: Start with the exact definition in simple board language.

12. FILE / IMAGE RULES:
    - If an image is attached, carefully read and analyse it
    - If it's a question paper, solve ALL visible questions step by step
    - If it's a diagram, explain what it shows in exam-appropriate language
    - If it's a PDF, treat it as a document and answer based on its content
    - Always relate file content back to " +:+
    board +:+
    " Class " +:+
    class_level +:+
    " " +:+
    subject +:+
    " syllabus
".

Definition prompt (board class_level subject chapter question : string) : string :=
  prompt_head board class_level subject chapter +:+ question +:+
  prompt_tail board class_level subject.

(** *** ask_question: the loop over [files] *)

(** The four variables the loop updates. *)
Record acc := {
  contents : list Part;
  uploaded_file_uris : list string;
  file_errors : list string;
  prompt_text : string;
}.

Definition add_part (p : Part) (st : acc) : acc :=
  {| contents := contents st ++ [p];
     uploaded_file_uris := uploaded_file_uris st;
     file_errors := file_errors st;
     prompt_text := prompt_text st |}.

Definition add_uri (file_name : string) (st : acc) : acc :=
  {| contents := contents st;
     uploaded_file_uris := uploaded_file_uris st ++ [file_name];
     file_errors := file_errors st;
     prompt_text := prompt_text st |}.

Definition add_error (msg : string) (st : acc) : acc :=
  {| contents := contents st;
     uploaded_file_uris := uploaded_file_uris st;
     file_errors := file_errors st ++ [msg];
     prompt_text := prompt_text st |}.

Definition add_text (s : string) (st : acc) : acc :=
  {| contents := contents st;
     uploaded_file_uris := uploaded_file_uris st;
     file_errors := file_errors st;
     prompt_text := prompt_text st +:+ s |}.

Definition unsupported_error (name : value) (mime : string) : string :=
  "File '" +:+ str name +:+ "' (" +:+ mime +:+ ") is unsupported".

Definition text_block (name : value) (text_content : string) : string :=
  nl +:+ nl +:+ "--- Content of " +:+ str name +:+ " ---" +:+ nl +:+
  text_content +:+ nl +:+ "--- End of " +:+ str name +:+ " ---".

(** The body of [for f in files]. *)
Definition attach (f : Attachment) (st : acc) : M acc :=
  let mime := get_default (f_mimeType f) "" in
  let b64 := get_default (f_base64 f) "" in
  let name := get_default (f_name f) "file" in
  if negb (truthy b64) || negb (truthy mime) then ret st
  else
    let mime := str mime in
    let b64 := str b64 in
    if negb (bool_decide (mime ∈ SUPPORTED_MIME_TYPES)) then
      ret (add_error (unsupported_error name mime) st)
    else
      match b64decode b64 with
      | Raise e =>
          ret (add_error ("Could not decode '" +:+ str name +:+ "': " +:+ e) st)
      | Ok raw_bytes =>
          if String.eqb mime "application/pdf" then
            (* except Exception as e: the inline fallback *)
            let fallback (e : string) : M acc :=
              match Part_from_bytes raw_bytes mime with
              | Ok p => ret (add_part p st)
              | Raise _ =>
                  ret (add_error ("Could not process PDF '" +:+ str name +:+
                                  "': " +:+ e) st)
              end in
            (* try: the upload, then the part, then the name *)
            let* r := upload_file_to_gemini raw_bytes "application/pdf" name in
            match r with
            | Ok (uri, file_name) =>
                match Part_from_uri uri "application/pdf" with
                | Ok p => ret (add_uri file_name (add_part p st))
                | Raise e => fallback e
                end
            | Raise e => fallback e
            end
          else if String.eqb mime "text/plain" then
            ret (add_text (text_block name (decode_utf8_replace raw_bytes)) st)
          else
            match Part_from_bytes raw_bytes mime with
            | Ok p => ret (add_part p st)
            | Raise e =>
                ret (add_error ("Could not process image '" +:+ str name +:+
                                "': " +:+ e) st)
            end
      end.

Fixpoint attach_all (files : list Attachment) (st : acc) : M acc :=
  match files with
  | [] => ret st
  | f :: files' => let* st' := attach f st in attach_all files' st'
  end.

Definition errors_note (file_errors : list string) : string :=
  nl +:+ nl +:+ "[Note: Some files could not be processed: " +:+
  String.concat "; " file_errors +:+ "]".

(** [if file_errors: prompt_text += ...] *)
Definition final_prompt (st : acc) : string :=
  match file_errors st with
  | [] => prompt_text st
  | _ :: _ => prompt_text st +:+ errors_note (file_errors st)
  end.

(** *** ask_question *)

Definition is_nil {A} (l : list A) : bool :=
  match l with [] => true | _ :: _ => false end.

Definition ask_question (payload : Payload) : M response :=
  let board := upper (strip (or_else (get (p_board payload)) "ICSE")) in
  let class_level := strip (or_else (get (p_class_level payload)) "10") in
  let subject := strip (or_else (get (p_subject payload)) "General") in
  let chapter := strip (or_else (get (p_chapter payload)) "General") in
  let question := strip (or_else (get (p_question payload)) "") in
  let model_choice := lower (or_else (get (p_model payload)) "t1") in
  let files := match p_files payload with Some l => l | None => [] end in
  if negb (bool_decide (board ∈ ALLOWED_BOARDS)) then
    ret (HTTPException 400 "Invalid board")
  else if String.eqb question "" && is_nil files then
    ret (HTTPException 400 "Question or file required")
  else
    let question :=
      if String.eqb question "" && negb (is_nil files)
      then default_question else question in
    let model_name :=
      if String.eqb model_choice "t2"
      then "gemini-3-flash-preview" else "gemini-2.5-flash-lite" in
    let* st := attach_all files
            {| contents := [];
               uploaded_file_uris := [];
               file_errors := [];
               prompt_text := prompt board class_level subject chapter question |} in
    ret (StreamingResponse model_name
           (contents st ++ [from_text (final_prompt st)])
           (uploaded_file_uris st)).

(** *** stream *)

Definition data_frame (text : string) : string :=
  "data: " +:+ json_dumps text +:+ nl +:+ nl.

Definition end_frame : string :=
  "event: end" +:+ nl +:+ "data: done" +:+ nl +:+ nl.

(** The frame the [except Exception as e] clause yields. *)
Definition error_frame (error_msg : string) : string :=
  if contains "quota" (lower error_msg) then
    "event: error" +:+ nl +:+
    "data: API quota exceeded. Please try again later." +:+ nl +:+ nl
  else if contains "api key" (lower error_msg) then
    "event: error" +:+ nl +:+
    "data: API configuration error. Please contact support." +:+ nl +:+ nl
  else
    "event: error" +:+ nl +:+ "data: " +:+ error_msg +:+ nl +:+ nl.

(** The [while True] loop.  [Ok tt]: the loop was left by [break];
    [Raise e]: it re-raised [chunk_error].  The end of the list is the
    exhausted stream, where [next(response_stream, None)] is [None]. *)
Fixpoint relay (response_stream : list pull) (chunk_count : nat)
  : M (result unit) :=
  match response_stream with
  | [] => ret (Ok tt)
  | Chunk text :: rest =>
      let text := or_else text "" in
      if negb (String.eqb text "") then
        yield (data_frame text) >>> relay rest (S chunk_count)
      else relay rest chunk_count
  | Raises chunk_error :: _ =>
      if Nat.eqb chunk_count 0 then ret (Raise chunk_error) else ret (Ok tt)
  end.

(** The [finally] clause: one delete per recorded name, its outcome dropped. *)
Fixpoint cleanup (uploaded_file_uris : list string) : M unit :=
  match uploaded_file_uris with
  | [] => ret tt
  | file_name :: rest =>
      invoke (delete_answer client) (files_delete file_name) >>> cleanup rest
  end.

Definition stream (model_name : string) (contents : list Part)
    (uploaded_file_uris : list string) : M unit :=
  let* r := (let* s := invoke (generate_answer client)
                (generate_content_stream model_name contents) in
        match s with
        | Raise e => ret (Raise e)
        | Ok response_stream =>
            let* l := relay response_stream 0 in
            match l with
            | Raise e => ret (Raise e)
            | Ok _ => yield end_frame >>> ret (Ok tt)
            end
        end) in
  match r with
  | Raise e => yield (error_frame e)
  | Ok _ => ret tt
  end >>>
  cleanup uploaded_file_uris.

(** The framework: run the handler and, when it returns a
    [StreamingResponse], iterate its generator to the end. *)
Definition serve (payload : Payload) : M response :=
  let* resp := ask_question payload in
  match resp with
  | HTTPException _ _ => ret resp
  | StreamingResponse model_name contents uploaded_file_uris =>
      stream model_name contents uploaded_file_uris >>> ret resp
  end.

End Handler.

(** ** Reading the event log *)

(** The frames yielded, in order. *)
Fixpoint frames_of (log : list event) : list string :=
  match log with
  | [] => []
  | Yielded frame :: log' => frame :: frames_of log'
  | Called _ :: log' => frames_of log'
  end.

(** The names [client.files.delete] was called with, in order. *)
Fixpoint deletes_of (log : list event) : list string :=
  match log with
  | [] => []
  | Called (files_delete name) :: log' => name :: deletes_of log'
  | _ :: log' => deletes_of log'
  end.

(** The calls made on [client], in order. *)
Fixpoint calls_of (log : list event) : list call :=
  match log with
  | [] => []
  | Called c :: log' => c :: calls_of log'
  | Yielded _ :: log' => calls_of log'
  end.

Definition is_data_frame (frame : string) : bool := startswith "data: " frame.
Definition is_error_frame (frame : string) : bool := startswith "event: error" frame.

(** In a sequence of frames, no error frame comes after a data frame. *)
Definition no_error_after_data (frames : list string) : Prop :=
  forall before f between g after,
    frames = (before ++ f :: between ++ g :: after)%list ->
    is_data_frame f = true -> is_error_frame g = false.

(** The texts the loop of [stream] forwards from a stream: those of the
    chunks with a non-empty text, up to the first exception. *)
Fixpoint forwarded (response_stream : list pull) : list string :=
  match response_stream with
  | [] => []
  | Chunk text :: rest =>
      if String.eqb (or_else text "") "" then forwarded rest
      else or_else text "" :: forwarded rest
  | Raises _ :: _ => []
  end.

(** No pull of the list raises. *)
Definition all_chunks (response_stream : list pull) : Prop :=
  Forall (fun p => exists text, p = Chunk text) response_stream.

(** ** Stand-ins for the library and the remote service

    Concrete values for the parameters of the model, used to run the handler
    on examples. *)

Module Sample.

(** [json.dumps] for ASCII text: quotes the text and escapes the quote, the
    backslash and the usual control characters. *)
Definition escape_char (c : ascii) : string :=
  let n := nat_of_ascii c in
  let backslash := String (ascii_of_nat 92) EmptyString in
  if Nat.eqb n 34 then backslash +:+ dquote
  else if Nat.eqb n 92 then backslash +:+ backslash
  else if Nat.eqb n 10 then backslash +:+ "n"
  else if Nat.eqb n 13 then backslash +:+ "r"
  else if Nat.eqb n 9 then backslash +:+ "t"
  else String c EmptyString.

Fixpoint escape (s : string) : string :=
  match s with
  | EmptyString => EmptyString
  | String c r => escape_char c +:+ escape r
  end.

Definition json_dumps (s : string) : string := dquote +:+ escape s +:+ dquote.

(** The value of a character of the base64 alphabet. *)
Definition sextet (c : ascii) : option nat :=
  let n := nat_of_ascii c in
  if ((65 <=? n) && (n <=? 90))%nat then Some (n - 65)
  else if ((97 <=? n) && (n <=? 122))%nat then Some (n - 71)
  else if ((48 <=? n) && (n <=? 57))%nat then Some (n + 4)
  else if Nat.eqb n 43 then Some 62
  else if Nat.eqb n 47 then Some 63
  else None.

Definition byte_of_nat (n : nat) : byte := byte_of_ascii (ascii_of_nat n).

Definition is_pad (c : ascii) : bool := Nat.eqb (nat_of_ascii c) 61.

(** Standard base64, four characters at a time, [=] padding in the last
    group only; what Python gives on well-formed input.  Anything else is
    refused with the message of [binascii.Error]. *)
Fixpoint decode_groups (cs : list ascii) : result (list byte) :=
  match cs with
  | [] => Ok []
  | a :: b :: c :: d :: rest =>
      match sextet a, sextet b with
      | Some x, Some y =>
          let b0 := byte_of_nat ((x * 4 + y / 16) mod 256) in
          match sextet c, sextet d, rest with
          | Some z, Some w, _ =>
              match decode_groups rest with
              | Ok tail =>
                  Ok (b0 :: byte_of_nat ((y * 16 + z / 4) mod 256)
                         :: byte_of_nat ((z * 64 + w) mod 256) :: tail)
              | Raise e => Raise e
              end
          | Some z, None, [] =>
              if is_pad d
              then Ok [b0; byte_of_nat ((y * 16 + z / 4) mod 256)]
              else Raise "Incorrect padding"
          | None, None, [] =>
              if is_pad c && is_pad d then Ok [b0] else Raise "Incorrect padding"
          | _, _, _ => Raise "Incorrect padding"
          end
      | _, _ => Raise "Incorrect padding"
      end
  | _ => Raise "Incorrect padding"
  end.

Definition b64decode (s : string) : result (list byte) :=
  decode_groups (list_ascii_of_string s).

(** Keeps the bytes: the text, held as its UTF-8 bytes, of a valid UTF-8
    sequence. *)
Definition decode_utf8_replace (raw : list byte) : string :=
  string_of_list_byte raw.

Definition from_bytes_error (_ : list byte) (_ : string) : option string := None.

Definition from_uri_error (_ _ : string) : option string := None.

(** An SDK whose [Part.from_uri] does not take the keyword [uri]. *)
Definition from_uri_rejected (_ _ : string) : option string :=
  Some "Part.from_uri() got an unexpected keyword argument 'uri'".

Definition file (state : string) : File :=
  {| file_state_name := state;
     file_uri := "https://files.example/f1";
     file_name := "files/f1" |}.

(** A service whose uploads and polls always show [upload_state] and whose
    generation gives [answer]. *)
Definition client (upload_state : string) (answer : result (list pull)) : Client :=
  {| upload_answer := fun _ => Ok (file upload_state);
     get_answer := fun _ => Ok (file upload_state);
     delete_answer := fun _ => Raise "404 file not found";
     generate_answer := fun _ => answer |}.

Definition attachment (name mime b64 : string) : Attachment :=
  {| f_name := Text name; f_mimeType := Text mime; f_base64 := Text b64 |}.

Definition payload (board question : entry) (files : list Attachment) : Payload :=
  {| p_board := board;
     p_class_level := Absent;
     p_subject := Absent;
     p_chapter := Absent;
     p_question := question;
     p_model := Absent;
     p_files := Some files |}.

(** The handler and its parts, run with these stand-ins. *)
Definition ask_question (c : Client) : Payload -> M response :=
  ask_question c b64decode decode_utf8_replace from_bytes_error from_uri_error.

Definition attach (c : Client) : Attachment -> acc -> M acc :=
  attach c b64decode decode_utf8_replace from_bytes_error from_uri_error.

Definition stream (c : Client) : string -> list Part -> list string -> M unit :=
  stream c json_dumps.

Definition serve (c : Client) : Payload -> M response :=
  serve c json_dumps b64decode decode_utf8_replace from_bytes_error from_uri_error.

(** A service whose uploads start in PROCESSING and show ACTIVE to the polls
    made once the log holds more than [ready_after] events. *)
Definition slow_client (ready_after : nat) (answer : result (list pull)) : Client :=
  {| upload_answer := fun _ => Ok (file "PROCESSING");
     get_answer := fun log =>
       if Nat.ltb ready_after (length log)
       then Ok (file "ACTIVE") else Ok (file "PROCESSING");
     delete_answer := fun _ => Ok tt;
     generate_answer := fun _ => answer |}.

(** A service that accepts uploads and fails every poll. *)
Definition flaky_client : Client :=
  {| upload_answer := fun _ => Ok (file "PROCESSING");
     get_answer := fun _ => Raise "503 Service Unavailable";
     delete_answer := fun _ => Ok tt;
     generate_answer := fun _ => Ok [] |}.

(** A stream that forwards one fragment, skips an empty chunk, then breaks. *)
Definition broken_stream : list pull :=
  [Chunk (Some "x = 4"); Chunk None; Raises "connection reset"; Chunk (Some "lost")].

End Sample.

(** ** The local variables of [ask_question], as functions of the payload *)

(** [board], line 116. *)
Definition board_of (payload : Payload) : string :=
  upper (strip (or_else (get (p_board payload)) "ICSE")).

(** [question] as first bound, line 120. *)
Definition question_of (payload : Payload) : string :=
  strip (or_else (get (p_question payload)) "").

(** [model_choice], line 121. *)
Definition model_choice_of (payload : Payload) : string :=
  lower (or_else (get (p_model payload)) "t1").

(** [files], line 122. *)
Definition files_of (payload : Payload) : list Attachment :=
  match p_files payload with Some l => l | None => [] end.

(** [prompt_text] up to [{question}], as rendered for the payload. *)
Definition head_of (payload : Payload) : string :=
  prompt_head (board_of payload)
    (strip (or_else (get (p_class_level payload)) "10"))
    (strip (or_else (get (p_subject payload)) "General"))
    (strip (or_else (get (p_chapter payload)) "General")).

Definition tail_of (payload : Payload) : string :=
  prompt_tail (board_of payload)
    (strip (or_else (get (p_class_level payload)) "10"))
    (strip (or_else (get (p_subject payload)) "General")).

Definition default_model : string := "gemini-2.5-flash-lite".

(** ** Observations used to state the properties *)

(** The message of the first exception in a stream, if any pull raises. *)
Fixpoint failure (response_stream : list pull) : option string :=
  match response_stream with
  | [] => None
  | Chunk _ :: rest => failure rest
  | Raises e :: _ => Some e
  end.

(** [polls client k uploaded log]: the polling loop goes round [k] times
    from [uploaded] without returning or raising: each state it tests is
    neither ACTIVE nor FAILED and each [client.files.get] answers.  Gives the
    file object and the log the loop then holds. *)
Fixpoint polls (client : Client) (k : nat) (uploaded : File) (log : list event)
  : option (File * list event) :=
  match k with
  | O => Some (uploaded, log)
  | S k' =>
      if String.eqb (file_state_name uploaded) "ACTIVE" then None
      else if String.eqb (file_state_name uploaded) "FAILED" then None
      else
        let log' := log ++ [Called (files_get (file_name uploaded))] in
        match get_answer client log' with
        | Ok uploaded' => polls client k' uploaded' log'
        | Raise _ => None
        end
  end.

(** The handles the request records for its cleanup among the uploads of
    [evs], the events that follow [before]: one name for each
    [client.files.upload] call whose [upload_file_to_gemini] returned and
    for whose uri [Part.from_uri] built the part. *)
Fixpoint recorded_from (client : Client)
    (from_uri_error : string -> string -> option string)
    (before evs : list event) : list string :=
  match evs with
  | [] => []
  | Called (files_upload raw_bytes mime_type name) as ev :: evs' =>
      match (upload_file_to_gemini client raw_bytes mime_type name before).1 with
      | Ok (uri, file_name) =>
          match from_uri_error uri "application/pdf" with
          | None => [file_name]
          | Some _ => []
          end
      | Raise _ => []
      end ++ recorded_from client from_uri_error (before ++ [ev]) evs'
  | ev :: evs' => recorded_from client from_uri_error (before ++ [ev]) evs'
  end.

(** The handles the service handed out during [evs]: the name of the file
    object each [client.files.upload] call returned, whatever became of the
    file afterwards. *)
Fixpoint created_from (client : Client) (before evs : list event) : list string :=
  match evs with
  | [] => []
  | Called (files_upload _ _ _) as ev :: evs' =>
      match upload_answer client (before ++ [ev]) with
      | Ok uploaded => [file_name uploaded]
      | Raise _ => []
      end ++ created_from client (before ++ [ev]) evs'
  | ev :: evs' => created_from client (before ++ [ev]) evs'
  end.

(** Every character of the string is whitespace. *)
Fixpoint all_space (s : string) : bool :=
  match s with
  | EmptyString => true
  | String c r => isspace c && all_space r
  end.

(** The question is missing, [null], empty or whitespace only. *)
Definition no_question (payload : Payload) : Prop :=
  match get (p_question payload) with
  | None => True
  | Some s => all_space s = true
  end.

(** The payload with its question, or its model tag, replaced. *)
Definition with_question (question : entry) (payload : Payload) : Payload :=
  {| p_board := p_board payload;
     p_class_level := p_class_level payload;
     p_subject := p_subject payload;
     p_chapter := p_chapter payload;
     p_question := question;
     p_model := p_model payload;
     p_files := p_files payload |}.

Definition with_model (model : entry) (payload : Payload) : Payload :=
  {| p_board := p_board payload;
     p_class_level := p_class_level payload;
     p_subject := p_subject payload;
     p_chapter := p_chapter payload;
     p_question := p_question payload;
     p_model := model;
     p_files := p_files payload |}.

(** The key is missing, or its value is [null] or the empty string. *)
Definition unset (e : entry) : Prop := e = Absent \/ e = Null \/ e = Text "".

(** The frames [stream] yields, as a function of the answer to the
    generation call. *)
Definition stream_frames (json_dumps : string -> string)
    (answer : result (list pull)) : list string :=
  match answer with
  | Raise e => [error_frame e]
  | Ok response_stream =>
      map (data_frame json_dumps) (forwarded response_stream) ++
      [match failure response_stream with
       | Some e => if is_nil (forwarded response_stream)
                   then error_frame e else end_frame
       | None => end_frame
       end]
  end.

(** Only polls: every event is a call to [client.files.get]. *)
Definition only_gets (evs : list event) : Prop :=
  Forall (fun ev => exists name, ev = Called (files_get name)) evs.

(** The [except] clause of the PDF branch, entered with the exception [e]:
    the bytes inline, or the error when [Part.from_bytes] raises too. *)
Definition pdf_fallback (from_bytes_error : list byte -> string -> option string)
    (name : value) (raw : list byte) (e : string) (st : acc) : acc :=
  match from_bytes_error raw "application/pdf" with
  | None => add_part (from_bytes raw "application/pdf") st
  | Some _ =>
      add_error ("Could not process PDF '" +:+ str name +:+ "': " +:+ e) st
  end.

(** What the PDF branch does with the outcome of the upload: the part and
    the name when the upload returned and [Part.from_uri] built the part,
    the fallback when either raised. *)
Definition pdf_outcome (from_bytes_error : list byte -> string -> option string)
    (from_uri_error : string -> string -> option string)
    (name : value) (raw : list byte)
    (r : result (string * string)) (st : acc) : acc :=
  match r with
  | Ok (uri, file_name) =>
      match from_uri_error uri "application/pdf" with
      | None => add_uri file_name (add_part (from_uri uri "application/pdf") st)
      | Some e => pdf_fallback from_bytes_error name raw e st
      end
  | Raise e => pdf_fallback from_bytes_error name raw e st
  end.

(** Fieldwise concatenation of two loop states, and the empty one. *)
Definition merge (st d : acc) : acc :=
  {| contents := contents st ++ contents d;
     uploaded_file_uris := uploaded_file_uris st ++ uploaded_file_uris d;
     file_errors := file_errors st ++ file_errors d;
     prompt_text := prompt_text st +:+ prompt_text d |}.

Definition empty_acc : acc :=
  {| contents := []; uploaded_file_uris := []; file_errors := []; prompt_text := "" |}.

Definition delete_calls (names : list string) : list event :=
  map (fun name => Called (files_delete name)) names.

(** ** Module start-up and the two GET routes *)

(** A value of the JSON objects [root] and [health] return. *)
Inductive json :=
| JString (s : string)
| JBool (b : bool).

(** The ENV CHECK at import: [GEMINI_API_KEY] is what [os.getenv] gave
    ([None] when the variable is not set).  The module loads, and the key is
    what it gave, or the import raises [RuntimeError]. *)
Definition env_check (GEMINI_API_KEY : value) : result string :=
  if negb (truthy GEMINI_API_KEY)
  then Raise "GEMINI_API_KEY environment variable not set"
  else Ok (str GEMINI_API_KEY).

(** [GET /] *)
Definition root : list (string * json) :=
  [("status", JString "running"); ("version", JString "3.1")].

(** [GET /health], given the module-level [GEMINI_API_KEY] and the text
    [datetime.utcnow().isoformat()] gives when the route runs.  (Nothing in
    the [try] block raises, so the [except] branch is left out.) *)
Definition health (GEMINI_API_KEY : value) (timestamp : string)
  : list (string * json) :=
  [("status", JString "healthy");
   ("api_key_present", JBool (truthy GEMINI_API_KEY));
   ("timestamp", JString timestamp)].

(** [d[key]] on such an object. *)
Fixpoint field (key : string) (d : list (string * json)) : option json :=
  match d with
  | [] => None
  | (k, v) :: d' => if String.eqb k key then Some v else field key d'
  end.

(** ** More observations *)

Definition is_text_part (p : Part) : bool :=
  match p with from_text _ => true | _ => false end.

Definition is_remote_part (p : Part) : bool :=
  match p with from_uri _ _ => true | _ => false end.

(** A part the loop over the files can add: inline bytes, or a reference to
    an uploaded PDF. *)
Definition is_attachment_part (p : Part) : bool :=
  match p with
  | from_text _ => false
  | from_uri _ mime_type => String.eqb mime_type "application/pdf"
  | from_bytes _ _ => true
  end.

Definition response_contents (r : response) : list Part :=
  match r with
  | StreamingResponse _ contents _ => contents
  | HTTPException _ _ => []
  end.

Definition response_uris (r : response) : list string :=
  match r with
  | StreamingResponse _ _ uploaded_file_uris => uploaded_file_uris
  | HTTPException _ _ => []
  end.

(** The guard [if not b64 or not mime] holds for the attachment. *)
Definition skipped (f : Attachment) : bool :=
  negb (truthy (get_default (f_base64 f) "")) ||
  negb (truthy (get_default (f_mimeType f) "")).

(** The attachment says it is a PDF. *)
Definition says_pdf (f : Attachment) : bool :=
  String.eqb (str (get_default (f_mimeType f) "")) "application/pdf".

(** A call the upload path makes: an upload of a PDF, or a poll. *)
Definition is_file_call (ev : event) : bool :=
  match ev with
  | Called (files_upload _ mime_type _) => String.eqb mime_type "application/pdf"
  | Called (files_get _) => true
  | _ => false
  end.

Definition is_upload (ev : event) : bool :=
  match ev with
  | Called (files_upload _ _ _) => true
  | _ => false
  end.

(** A chunk whose text is [None] or empty. *)
Definition is_empty_chunk (p : pull) : bool :=
  match p with
  | Chunk text => String.eqb (or_else text "") ""
  | Raises _ => false
  end.

Definition is_image_type (mime : string) : bool :=
  String.eqb mime "image/jpeg" || String.eqb mime "image/png" ||
  String.eqb mime "image/gif" || String.eqb mime "image/webp".

(** The blocks the text/plain attachments put into the prompt, in the order
    of the files: one for each such attachment that is not skipped and whose
    payload decodes. *)
Fixpoint text_blocks (b64decode : string -> result (list byte))
    (decode_utf8_replace : list byte -> string) (files : list Attachment) : string :=
  match files with
  | [] => ""
  | f :: files' =>
      (if negb (skipped f) &&
          String.eqb (str (get_default (f_mimeType f) "")) "text/plain"
       then match b64decode (str (get_default (f_base64 f) "")) with
            | Ok raw =>
                text_block (get_default (f_name f) "file") (decode_utf8_replace raw)
            | Raise _ => ""
            end
       else "") +:+
      text_blocks b64decode decode_utf8_replace files'
  end.

(** The payload with its board replaced. *)
Definition with_board (board : entry) (payload : Payload) : Payload :=
  {| p_board := board;
     p_class_level := p_class_level payload;
     p_subject := p_subject payload;
     p_chapter := p_chapter payload;
     p_question := p_question payload;
     p_model := p_model payload;
     p_files := p_files payload |}.

(** The same service, answering the deletes differently. *)
Definition with_delete_answer (answer : list event -> result unit)
    (client : Client) : Client :=
  {| upload_answer := upload_answer client;
     get_answer := get_answer client;
     delete_answer := answer;
     generate_answer := generate_answer client |}.

(** Membership in one of the two constant sets, by evaluation. *)
Ltac decide_member :=
  match goal with
  | |- ?x ∉ ?X => apply (bool_decide_eq_false_1 (x ∈ X)); vm_compute; reflexivity
  | |- ?x ∈ ?X => apply (bool_decide_eq_true_1 (x ∈ X)); vm_compute; reflexivity
  end.

(** ** Facts about text *)

Lemma append_cons (x : ascii) (a b : string) :
  String x a +:+ b = String x (a +:+ b).
Proof. reflexivity. Qed.

Lemma append_nil_l (a : string) : "" +:+ a = a.
Proof. reflexivity. Qed.

Lemma append_assoc (a b c : string) : (a +:+ b) +:+ c = a +:+ (b +:+ c).
Proof.
  induction a as [|x a IH]; [reflexivity |].
  now rewrite !append_cons, IH.
Qed.

Lemma append_nil_r (a : string) : a +:+ "" = a.
Proof.
  induction a as [|x a IH]; [reflexivity |].
  now rewrite append_cons, IH.
Qed.

Lemma prefix_append (p r : string) : startswith p (p +:+ r) = true.
Proof.
  induction p as [|x p IH]; [reflexivity |].
  rewrite append_cons. cbn [startswith]. now rewrite Ascii.eqb_refl.
Qed.

Lemma prefix_inv (p s : string) :
  startswith p s = true -> exists r, s = p +:+ r.
Proof.
  revert s. induction p as [|x p IH]; intros s H.
  - exists s. reflexivity.
  - destruct s as [|y s]; cbn [startswith] in H; [discriminate |].
    apply andb_true_iff in H as [Hxy H]. apply Ascii.eqb_eq in Hxy as ->.
    destruct (IH _ H) as [r ->]. now exists r.
Qed.

Lemma contains_prefix (needle hay : string) :
  startswith needle hay = true -> contains needle hay = true.
Proof. intros H. destruct hay; cbn [contains]; now rewrite H. Qed.

(** [contains] is Python's substring test. *)
Lemma contains_intro (needle a b : string) :
  contains needle (a +:+ needle +:+ b) = true.
Proof.
  induction a as [|x a IH].
  - rewrite append_nil_l. apply contains_prefix, prefix_append.
  - rewrite append_cons. cbn [contains]. rewrite IH. apply orb_true_r.
Qed.

Lemma contains_inv (needle hay : string) :
  contains needle hay = true -> exists a b, hay = a +:+ needle +:+ b.
Proof.
  induction hay as [|x hay IH]; intros H.
  - cbn [contains] in H. rewrite orb_false_r in H.
    apply prefix_inv in H as [r ->]. now exists "", r.
  - cbn [contains] in H. apply orb_true_iff in H as [H|H].
    + apply prefix_inv in H as [r ->]. now exists "", r.
    + destruct (IH H) as (a & b & ->). now exists (String x a), b.
Qed.

Lemma contains_iff (needle hay : string) :
  contains needle hay = true <-> exists a b, hay = a +:+ needle +:+ b.
Proof.
  split; [apply contains_inv |].
  intros (a & b & ->). apply contains_intro.
Qed.

Lemma contains_member (sep e : string) (l : list string) :
  In e l -> contains e (String.concat sep l) = true.
Proof.
  induction l as [|x l IH]; intros H; [destruct H |].
  destruct H as [->|H].
  - destruct l as [|y l]; simpl.
    + rewrite <- (append_nil_r e) at 2. apply (contains_intro e "" "").
    + apply (contains_intro e "").
  - specialize (IH H). destruct l as [|y l]; [destruct H |].
    apply contains_inv in IH as (a & b & E).
    change (String.concat sep (x :: y :: l))
      with (x +:+ sep +:+ String.concat sep (y :: l)).
    rewrite E, <- !append_assoc.
    rewrite (append_assoc _ e b). apply contains_intro.
Qed.

(** ** Facts about the handler *)

Section Facts.

Context (client : Client) (json_dumps : string -> string)
  (b64decode : string -> result (list byte))
  (decode_utf8_replace : list byte -> string)
  (from_bytes_error : list byte -> string -> option string)
  (from_uri_error : string -> string -> option string).

Local Abbreviation attach :=
  (attach client b64decode decode_utf8_replace from_bytes_error from_uri_error).
Local Abbreviation attach_all :=
  (attach_all client b64decode decode_utf8_replace from_bytes_error from_uri_error).
Local Abbreviation ask_question :=
  (ask_question client b64decode decode_utf8_replace from_bytes_error from_uri_error).
Local Abbreviation stream := (stream client json_dumps).
Local Abbreviation serve :=
  (serve client json_dumps b64decode decode_utf8_replace from_bytes_error from_uri_error).
Local Abbreviation upload_file_to_gemini := (upload_file_to_gemini client).
Local Abbreviation poll := (poll client).
Local Abbreviation cleanup := (cleanup client).
Local Abbreviation relay := (relay json_dumps).
Local Abbreviation data_frame := (data_frame json_dumps).
Local Abbreviation Part_from_bytes := (Part_from_bytes from_bytes_error).
Local Abbreviation Part_from_uri := (Part_from_uri from_uri_error).
Local Abbreviation recorded_from := (recorded_from client from_uri_error).
Local Abbreviation created_from := (created_from client).
Local Abbreviation stream_frames := (stream_frames json_dumps).
Local Abbreviation pdf_outcome := (pdf_outcome from_bytes_error from_uri_error).

(** *** Validation *)

Lemma ask_question_invalid_board payload log :
  board_of payload ∉ ALLOWED_BOARDS ->
  ask_question payload log = (HTTPException 400 "Invalid board", log).
Proof.
  intros H. unfold ask_question. fold (board_of payload).
  rewrite (bool_decide_eq_false_2 _ H). reflexivity.
Qed.

Lemma ask_question_missing_input payload log :
  board_of payload ∈ ALLOWED_BOARDS ->
  question_of payload = "" -> files_of payload = [] ->
  ask_question payload log = (HTTPException 400 "Question or file required", log).
Proof.
  intros Hb Hq Hf. unfold ask_question.
  fold (board_of payload) (question_of payload) (files_of payload).
  rewrite (bool_decide_eq_true_2 _ Hb), Hq, Hf. reflexivity.
Qed.

(** Once both checks pass the handler runs the loop over the files and
    answers with a stream whose last part is the prompt text. *)
Lemma ask_question_streams payload log :
  board_of payload ∈ ALLOWED_BOARDS ->
  question_of payload <> "" \/ files_of payload <> [] ->
  exists question model_name,
    question = (if String.eqb (question_of payload) ""
                then default_question else question_of payload) /\
    model_name = (if String.eqb (model_choice_of payload) "t2"
                  then "gemini-3-flash-preview" else default_model) /\
    let start := {| contents := []; uploaded_file_uris := []; file_errors := [];
                    prompt_text := head_of payload +:+ question +:+ tail_of payload |} in
    ask_question payload log =
      (StreamingResponse model_name
         (contents (attach_all (files_of payload) start log).1 ++
          [from_text (final_prompt (attach_all (files_of payload) start log).1)])
         (uploaded_file_uris (attach_all (files_of payload) start log).1),
       (attach_all (files_of payload) start log).2).
Proof.
  intros Hb Hqf. eexists _, _. split; [reflexivity |]. split; [reflexivity |].
  cbv zeta. unfold ask_question.
  fold (board_of payload) (question_of payload) (files_of payload)
       (model_choice_of payload).
  rewrite (bool_decide_eq_true_2 _ Hb). cbn [negb].
  assert (String.eqb (question_of payload) "" && is_nil (files_of payload) = false)
    as ->.
  { destruct Hqf as [Hq|Hf].
    - apply String.eqb_neq in Hq. now rewrite Hq.
    - destruct (files_of payload); [congruence |]. apply andb_false_r. }
  assert ((if String.eqb (question_of payload) "" && negb (is_nil (files_of payload))
           then default_question else question_of payload)
          = (if String.eqb (question_of payload) ""
             then default_question else question_of payload)) as ->.
  { destruct (String.eqb_spec (question_of payload) "") as [Hq|Hq]; [| reflexivity].
    destruct Hqf as [Hq'|Hf]; [congruence |].
    destruct (files_of payload); [congruence | reflexivity]. }
  unfold bind, ret, head_of, tail_of, prompt, default_model.
  fold (board_of payload).
  destruct (attach_all _ _ log) as [st log']. reflexivity.
Qed.

(** C3.  A payload whose board, stripped and uppercased, is not one of ICSE,
    CBSE and SSLC is answered with HTTP 400 "Invalid board", and the whole
    request leaves the event log as it found it: no call on the remote
    service has been made (and no frame sent). *)
Theorem invalid_board_rejected payload log :
  board_of payload ∉ ALLOWED_BOARDS ->
  serve payload log = (HTTPException 400 "Invalid board", log).
Proof.
  intros H. unfold serve, bind.
  rewrite (ask_question_invalid_board _ _ H). reflexivity.
Qed.

(** *** The event log *)

Lemma frames_of_app (a b : list event) :
  frames_of (a ++ b) = frames_of a ++ frames_of b.
Proof.
  induction a as [|[c|fr] a IH]; simpl; [reflexivity | exact IH | now rewrite IH].
Qed.

Lemma deletes_of_app (a b : list event) :
  deletes_of (a ++ b) = deletes_of a ++ deletes_of b.
Proof.
  induction a as [|[[]|fr] a IH]; simpl; try exact IH; [reflexivity | now rewrite IH].
Qed.

Lemma frames_of_yields (frames : list string) :
  frames_of (map Yielded frames) = frames.
Proof. induction frames as [|x l IH]; simpl; [reflexivity | now rewrite IH]. Qed.

Lemma deletes_of_yields (frames : list string) :
  deletes_of (map Yielded frames) = [].
Proof. induction frames as [|x l IH]; simpl; [reflexivity | exact IH]. Qed.

Lemma frames_of_delete_calls (names : list string) :
  frames_of (delete_calls names) = [].
Proof. induction names as [|x l IH]; simpl; [reflexivity | exact IH]. Qed.

Lemma deletes_of_delete_calls (names : list string) :
  deletes_of (delete_calls names) = names.
Proof. induction names as [|x l IH]; simpl; [reflexivity | now rewrite IH]. Qed.

(** *** The frames *)

Lemma data_frame_is_data text : is_data_frame (data_frame text) = true.
Proof. reflexivity. Qed.

Lemma data_frame_not_error text : is_error_frame (data_frame text) = false.
Proof. reflexivity. Qed.

Lemma end_frame_not_error : is_error_frame end_frame = false.
Proof. reflexivity. Qed.

Lemma error_frame_is_error e : is_error_frame (error_frame e) = true.
Proof.
  unfold error_frame.
  destruct (contains "quota" (lower e)); [reflexivity |].
  destruct (contains "api key" (lower e)); reflexivity.
Qed.

Lemma error_frame_not_data e : is_data_frame (error_frame e) = false.
Proof.
  unfold error_frame.
  destruct (contains "quota" (lower e)); [reflexivity |].
  destruct (contains "api key" (lower e)); reflexivity.
Qed.

Lemma no_error_after_data_single (frame : string) : no_error_after_data [frame].
Proof.
  intros before f between g after E _.
  apply (f_equal (@length string)) in E.
  rewrite length_app in E. simpl in E. rewrite length_app in E. simpl in E. lia.
Qed.

Lemma no_error_after_data_clean (frames : list string) :
  Forall (fun f => is_error_frame f = false) frames ->
  no_error_after_data frames.
Proof.
  intros H before f between g after -> _.
  rewrite Forall_forall in H. apply H.
  apply elem_of_app. right. apply elem_of_cons. right.
  apply elem_of_app. right. apply elem_of_cons. now left.
Qed.

(** *** The relay loop *)

Lemma failure_app pre e rest :
  all_chunks pre -> failure (pre ++ Raises e :: rest) = Some e.
Proof.
  induction 1 as [|p pre [text ->] _ IH]; simpl; [reflexivity | exact IH].
Qed.

Lemma forwarded_app pre e rest :
  all_chunks pre -> forwarded (pre ++ Raises e :: rest) = forwarded pre.
Proof.
  induction 1 as [|p pre [text ->] _ IH]; simpl; [reflexivity |].
  now rewrite IH.
Qed.

(** What the loop gives and yields, in closed form: it re-raises only an
    exception met before anything was forwarded. *)
Lemma relay_eq (response_stream : list pull) (chunk_count : nat) log :
  relay response_stream chunk_count log =
    (match failure response_stream with
     | Some e =>
         if Nat.eqb (chunk_count + length (forwarded response_stream)) 0
         then Raise e else Ok tt
     | None => Ok tt
     end,
     log ++ map Yielded (map data_frame (forwarded response_stream))).
Proof.
  revert chunk_count log.
  induction response_stream as [|[text|e] rest IH]; intros n log.
  - simpl. now rewrite app_nil_r.
  - cbn [relay failure forwarded].
    destruct (String.eqb (or_else text "") "") eqn:E; cbn [negb].
    + apply IH.
    + unfold bind, yield. rewrite IH. cbn [length map].
      rewrite <- app_assoc.
      replace (n + S (length (forwarded rest))) with (S n + length (forwarded rest))
        by lia.
      reflexivity.
  - cbn [relay failure forwarded length map]. rewrite Nat.add_0_r, app_nil_r.
    unfold ret. now destruct (Nat.eqb n 0).
Qed.

Lemma cleanup_eq (names : list string) log :
  cleanup names log = (tt, log ++ delete_calls names).
Proof.
  revert log. induction names as [|x l IH]; intros log.
  - simpl. now rewrite app_nil_r.
  - cbn [cleanup delete_calls map]. unfold bind, invoke. rewrite IH.
    now rewrite <- app_assoc.
Qed.

Lemma stream_eq model_name contents uploaded_file_uris log :
  let started := log ++ [Called (generate_content_stream model_name contents)] in
  stream model_name contents uploaded_file_uris log =
    (tt, started ++
         map Yielded (stream_frames (generate_answer client started)) ++
         delete_calls uploaded_file_uris).
Proof.
  cbv zeta. unfold stream, bind, invoke at 1.
  destruct (generate_answer client _) as [rs|e]; cbn [stream_frames].
  - rewrite relay_eq.
    destruct (failure rs) as [e|]; [destruct (forwarded rs) eqn:F |];
      cbn [length Nat.add Nat.eqb is_nil];
      try rewrite Nat.add_succ_r; cbn [Nat.eqb];
      unfold bind, yield, ret; rewrite cleanup_eq;
      rewrite ?map_app, <- ?app_assoc; reflexivity.
  - unfold ret, yield. rewrite cleanup_eq. now rewrite <- app_assoc.
Qed.

Lemma stream_frames_ordered answer : no_error_after_data (stream_frames answer).
Proof.
  destruct answer as [rs|e]; cbn [stream_frames];
    [| apply no_error_after_data_single].
  assert (Hdata : Forall (fun f => is_error_frame f = false)
                    (map data_frame (forwarded rs))).
  { apply Forall_forall. intros f Hf.
    apply list_elem_of_fmap in Hf as (t' & -> & _). apply data_frame_not_error. }
  destruct (failure rs) as [e|].
  - destruct (forwarded rs) as [|t ts]; cbn [is_nil].
    + apply no_error_after_data_single.
    + apply no_error_after_data_clean, Forall_app.
      split; [exact Hdata | repeat constructor].
  - apply no_error_after_data_clean, Forall_app.
    split; [exact Hdata | repeat constructor].
Qed.

(** C1.  When a pull on the remote stream raises [e] after the chunks [pre],
    what the client gets depends only on whether a non-empty fragment of
    [pre] was forwarded: if one was, the data frames are followed by the end
    event and there is no error event at all; if none was, the only frame is
    the error event.  And on every run of [stream], whatever the service
    answers, no error frame comes after a data frame. *)
Theorem stream_failure_outcome :
  (forall model_name contents uris log pre e rest,
      generate_answer client
        (log ++ [Called (generate_content_stream model_name contents)])
        = Ok (pre ++ Raises e :: rest) ->
      all_chunks pre ->
      let frames := frames_of (stream model_name contents uris log).2 in
      (forwarded pre <> [] ->
         frames = frames_of log ++ map data_frame (forwarded pre) ++ [end_frame] /\
         Forall (fun f => is_error_frame f = false)
           (map data_frame (forwarded pre) ++ [end_frame])) /\
      (forwarded pre = [] ->
         frames = frames_of log ++ [error_frame e])) /\
  (forall model_name contents uris log,
      exists evs,
        (stream model_name contents uris log).2 = log ++ evs /\
        no_error_after_data (frames_of evs)).
Proof.
  split.
  - intros model_name contents uris log pre e rest Hans Hpre. cbv zeta.
    rewrite stream_eq. cbv zeta. cbn [snd]. rewrite Hans. cbn [stream_frames].
    rewrite (failure_app _ _ _ Hpre), (forwarded_app _ _ _ Hpre).
    rewrite !frames_of_app, frames_of_yields, frames_of_delete_calls.
    cbn [frames_of]. rewrite !app_nil_r. cbn [app].
    split.
    + intros Hne. destruct (forwarded pre) as [|t ts] eqn:F; [congruence |].
      cbn [is_nil]. split; [reflexivity |].
      apply Forall_app. split; [| repeat constructor].
      apply Forall_forall. intros f Hf.
      apply list_elem_of_fmap in Hf as (t' & -> & _). apply data_frame_not_error.
    + intros ->. reflexivity.
  - intros model_name contents uris log. rewrite stream_eq. cbv zeta. cbn [snd].
    eexists. rewrite <- app_assoc. split; [reflexivity |].
    cbn [app frames_of].
    rewrite frames_of_app, frames_of_yields, frames_of_delete_calls, app_nil_r.
    apply stream_frames_ordered.
Qed.

(** C9.  When the relay fails with nothing forwarded (the generation call
    raises [e], or a pull raises [e] before any non-empty fragment), exactly
    one frame is yielded, an error event, and its message is chosen by
    substring tests on the lowercased message of [e]: the rate-limit notice
    if it contains "quota", else the configuration notice if it contains
    "api key", else the message itself. *)
Theorem failed_stream_single_error model_name contents uris log e :
  let started := log ++ [Called (generate_content_stream model_name contents)] in
  generate_answer client started = Raise e \/
  (exists pre rest,
      generate_answer client started = Ok (pre ++ Raises e :: rest) /\
      all_chunks pre /\ forwarded pre = []) ->
  let quota := exists a b, lower e = a +:+ "quota" +:+ b in
  let api_key := exists a b, lower e = a +:+ "api key" +:+ b in
  frames_of (stream model_name contents uris log).2
    = frames_of log ++ [error_frame e] /\
  (quota ->
     error_frame e =
       "event: error" +:+ nl +:+
       "data: API quota exceeded. Please try again later." +:+ nl +:+ nl) /\
  (~ quota -> api_key ->
     error_frame e =
       "event: error" +:+ nl +:+
       "data: API configuration error. Please contact support." +:+ nl +:+ nl) /\
  (~ quota -> ~ api_key ->
     error_frame e = "event: error" +:+ nl +:+ "data: " +:+ e +:+ nl +:+ nl).
Proof.
  cbv zeta. intros H. split.
  - rewrite stream_eq. cbv zeta. cbn [snd].
    rewrite !frames_of_app, frames_of_yields, frames_of_delete_calls.
    cbn [frames_of]. rewrite !app_nil_r. cbn [app]. f_equal.
    destruct H as [-> | (pre & rest & -> & Hpre & Hnone)]; [reflexivity |].
    cbn [stream_frames].
    rewrite (failure_app _ _ _ Hpre), (forwarded_app _ _ _ Hpre), Hnone.
    reflexivity.
  - unfold error_frame.
    destruct (contains "quota" (lower e)) eqn:Q;
      [| destruct (contains "api key" (lower e)) eqn:K].
    + apply contains_iff in Q.
      split; [reflexivity |]. split; intros NQ; now destruct NQ.
    + apply not_true_iff_false in Q. rewrite contains_iff in Q.
      split; [intros HQ; now destruct Q |]. split; [reflexivity |].
      intros _ NK. destruct NK. now apply contains_iff.
    + apply not_true_iff_false in Q, K. rewrite contains_iff in Q, K.
      split; [intros HQ; now destruct Q |]. split; [| reflexivity].
      intros _ HK. now destruct K.
Qed.

(** *** Polling *)

Lemma poll_extends attempts name uploaded log :
  exists evs, (poll attempts name uploaded log).2 = log ++ evs /\ only_gets evs.
Proof.
  revert uploaded log. induction attempts as [|n IH]; intros u log; cbn [poll].
  - exists []. rewrite app_nil_r. split; [reflexivity | constructor].
  - destruct (String.eqb (file_state_name u) "ACTIVE");
      [exists []; rewrite app_nil_r; split; [reflexivity | constructor] |].
    destruct (String.eqb (file_state_name u) "FAILED");
      [exists []; rewrite app_nil_r; split; [reflexivity | constructor] |].
    unfold bind, invoke.
    destruct (get_answer client _) as [u'|e].
    + destruct (IH u' (log ++ [Called (files_get (file_name u))])) as (evs & E & G).
      exists (Called (files_get (file_name u)) :: evs).
      rewrite E, <- app_assoc. split; [reflexivity |].
      constructor; [now eexists | exact G].
    + exists [Called (files_get (file_name u))].
      split; [reflexivity |]. constructor; [now eexists | constructor].
Qed.

Lemma upload_extends raw_bytes mime_type name log :
  exists evs,
    (upload_file_to_gemini raw_bytes mime_type name log).2
      = log ++ Called (files_upload raw_bytes mime_type name) :: evs /\
    only_gets evs.
Proof.
  unfold upload_file_to_gemini, bind, invoke.
  destruct (upload_answer client _) as [u|e].
  - destruct (poll_extends max_attempts name u
                (log ++ [Called (files_upload raw_bytes mime_type name)]))
      as (evs & E & G).
    exists evs. destruct (poll _ _ _ _) as [[h|e] log']; cbn [snd] in *;
      subst log'; rewrite <- app_assoc; split; (reflexivity || exact G).
  - exists []. split; [reflexivity | constructor].
Qed.

(** After [k] idle rounds the loop is where it would be had it started there
    with [k] attempts fewer. *)
Lemma poll_after_polls k attempts name uploaded log uploaded' log' :
  polls client k uploaded log = Some (uploaded', log') ->
  poll (k + attempts) name uploaded log = poll attempts name uploaded' log'.
Proof.
  revert uploaded log. induction k as [|k IH]; intros u log H; cbn [polls] in H.
  - now injection H as -> ->.
  - cbn [Nat.add poll].
    destruct (String.eqb (file_state_name u) "ACTIVE"); [discriminate |].
    destruct (String.eqb (file_state_name u) "FAILED"); [discriminate |].
    unfold bind, invoke.
    destruct (get_answer client _) as [u1|e]; [| discriminate].
    now apply IH.
Qed.

Lemma poll_failed k attempts name uploaded log uploaded' log' :
  polls client k uploaded log = Some (uploaded', log') ->
  k < attempts ->
  file_state_name uploaded' = "FAILED" ->
  poll attempts name uploaded log
    = (Raise ("File processing failed: " +:+ str name), log').
Proof.
  intros H Hk Hst.
  replace attempts with (k + S (attempts - S k)) by lia.
  rewrite (poll_after_polls _ _ _ _ _ _ _ H). cbn [poll]. now rewrite Hst.
Qed.

Lemma poll_timeout attempts name uploaded log uploaded' log' :
  polls client attempts uploaded log = Some (uploaded', log') ->
  poll attempts name uploaded log
    = (Raise ("File processing timeout for: " +:+ str name), log').
Proof.
  intros H. rewrite <- (Nat.add_0_r attempts) at 1.
  now rewrite (poll_after_polls _ _ _ _ _ _ _ H).
Qed.

(** *** Acquired handles *)

Lemma recorded_from_app before a b :
  recorded_from before (a ++ b)
    = recorded_from before a ++ recorded_from (before ++ a) b.
Proof.
  revert before. induction a as [|ev a IH]; intros before.
  - now rewrite app_nil_r.
  - cbn [app recorded_from].
    replace (before ++ ev :: a) with ((before ++ [ev]) ++ a)
      by now rewrite <- app_assoc.
    destruct ev as [[]|]; rewrite IH; try reflexivity.
    apply List.app_assoc.
Qed.

Lemma recorded_from_gets before evs :
  only_gets evs -> recorded_from before evs = [].
Proof.
  intros H. revert before.
  induction H as [|ev evs [name ->] _ IH]; intros before; [reflexivity |].
  cbn [recorded_from]. apply IH.
Qed.

Lemma recorded_from_yields before frames :
  recorded_from before (map Yielded frames) = [].
Proof.
  revert before. induction frames as [|x l IH]; intros before; [reflexivity |].
  cbn [map recorded_from]. apply IH.
Qed.

Lemma recorded_from_delete_calls before names :
  recorded_from before (delete_calls names) = [].
Proof.
  revert before. induction names as [|x l IH]; intros before; [reflexivity |].
  cbn [delete_calls map recorded_from]. apply IH.
Qed.

Lemma only_gets_quiet evs :
  only_gets evs -> frames_of evs = [] /\ deletes_of evs = [].
Proof.
  induction 1 as [|ev evs [name ->] _ [IHf IHd]]; [now split |].
  cbn [frames_of deletes_of]. now split.
Qed.

(** *** The loop over the files only appends *)

Lemma merge_empty st : merge st empty_acc = st.
Proof.
  destruct st. unfold merge, empty_acc. cbn.
  now rewrite !app_nil_r, append_nil_r.
Qed.

Lemma merge_assoc a b c : merge (merge a b) c = merge a (merge b c).
Proof.
  unfold merge. cbn. now rewrite <- !List.app_assoc, append_assoc.
Qed.

Lemma add_part_merge p st : add_part p st = merge st (add_part p empty_acc).
Proof.
  destruct st. unfold merge, add_part, empty_acc. cbn.
  now rewrite !app_nil_r, append_nil_r.
Qed.

Lemma add_uri_merge n st : add_uri n st = merge st (add_uri n empty_acc).
Proof.
  destruct st. unfold merge, add_uri, empty_acc. cbn.
  now rewrite !app_nil_r, append_nil_r.
Qed.

Lemma add_error_merge msg st : add_error msg st = merge st (add_error msg empty_acc).
Proof.
  destruct st. unfold merge, add_error, empty_acc. cbn.
  now rewrite !app_nil_r, append_nil_r.
Qed.

Lemma add_text_merge s st : add_text s st = merge st (add_text s empty_acc).
Proof.
  destruct st. unfold merge, add_text, empty_acc. cbn.
  now rewrite !app_nil_r.
Qed.

(** What one attachment adds does not depend on the state it is added to. *)
Lemma attach_merge f st log :
  attach f st log
    = (merge st (attach f empty_acc log).1, (attach f empty_acc log).2).
Proof.
  unfold attach.
  destruct (negb (truthy (get_default (f_base64 f) "")) ||
            negb (truthy (get_default (f_mimeType f) "")));
    [unfold ret; cbn [fst snd]; now rewrite merge_empty |].
  destruct (negb (bool_decide (str (get_default (f_mimeType f) "")
                                 ∈ SUPPORTED_MIME_TYPES)));
    [unfold ret; cbn [fst snd]; now rewrite add_error_merge |].
  destruct (b64decode _) as [raw|e];
    [| unfold ret; cbn [fst snd]; now rewrite add_error_merge].
  destruct (String.eqb _ "application/pdf").
  - cbv zeta. unfold bind.
    destruct (upload_file_to_gemini _ _ _ log) as [[[u n]|e] log'].
    + destruct (Part_from_uri u "application/pdf") as [p|e].
      * unfold ret; cbn [fst snd].
        rewrite add_uri_merge, add_part_merge, merge_assoc.
        now rewrite <- add_uri_merge.
      * destruct (Part_from_bytes _ _); unfold ret; cbn [fst snd];
          [now rewrite add_part_merge | now rewrite add_error_merge].
    + destruct (Part_from_bytes _ _); unfold ret; cbn [fst snd];
        [now rewrite add_part_merge | now rewrite add_error_merge].
  - destruct (String.eqb _ "text/plain");
      [unfold ret; cbn [fst snd]; now rewrite add_text_merge |].
    destruct (Part_from_bytes _ _); unfold ret; cbn [fst snd];
      [now rewrite add_part_merge | now rewrite add_error_merge].
Qed.

Lemma attach_all_merge files st log :
  attach_all files st log
    = (merge st (attach_all files empty_acc log).1,
       (attach_all files empty_acc log).2).
Proof.
  revert st log. induction files as [|f files IH]; intros st log.
  - cbn. unfold ret. cbn [fst snd]. now rewrite merge_empty.
  - cbn [attach_all]. unfold bind.
    rewrite (attach_merge f st).
    destruct (attach f empty_acc log) as [d1 log1]. cbn [fst snd].
    rewrite (IH (merge st d1)), (IH d1).
    destruct (attach_all files empty_acc log1) as [d2 log2]. cbn [fst snd].
    now rewrite merge_assoc.
Qed.

(** The events of one attachment: no frame, no delete, and the names the
    loop records are those of [recorded_from]. *)
Lemma attach_log f log :
  exists evs,
    (attach f empty_acc log).2 = log ++ evs /\
    frames_of evs = [] /\ deletes_of evs = [] /\
    recorded_from log evs = uploaded_file_uris (attach f empty_acc log).1.
Proof.
  assert (Hquiet : forall st : acc, uploaded_file_uris st = [] ->
            exists evs, log = log ++ evs /\ frames_of evs = [] /\
              deletes_of evs = [] /\
              recorded_from log evs = uploaded_file_uris st).
  { intros st ->. exists []. now rewrite app_nil_r. }
  unfold attach.
  destruct (negb _ || negb _); [now apply Hquiet |].
  destruct (negb (bool_decide _)); [now apply Hquiet |].
  destruct (b64decode _) as [raw|e]; [| now apply Hquiet].
  destruct (String.eqb _ "application/pdf").
  - cbv zeta. unfold bind.
    destruct (upload_extends raw "application/pdf"
                (get_default (f_name f) "file") log) as (evs & E & G).
    destruct (only_gets_quiet _ G) as [Gf Gd].
    exists (Called (files_upload raw "application/pdf"
                      (get_default (f_name f) "file")) :: evs).
    cbn [frames_of deletes_of recorded_from].
    rewrite (recorded_from_gets _ _ G), app_nil_r.
    destruct (upload_file_to_gemini _ _ _ log) as [[[u n]|e] log'];
      cbn [fst snd] in *; subst log'.
    + unfold Part_from_uri. destruct (from_uri_error u "application/pdf").
      * destruct (Part_from_bytes _ _); unfold ret; cbn; auto.
      * unfold ret. cbn. auto.
    + destruct (Part_from_bytes _ _); unfold ret; cbn; auto.
  - destruct (String.eqb _ "text/plain"); [now apply Hquiet |].
    destruct (Part_from_bytes _ _); now apply Hquiet.
Qed.

Lemma attach_all_log files log :
  exists evs,
    (attach_all files empty_acc log).2 = log ++ evs /\
    frames_of evs = [] /\ deletes_of evs = [] /\
    recorded_from log evs
      = uploaded_file_uris (attach_all files empty_acc log).1.
Proof.
  revert log. induction files as [|f files IH]; intros log.
  - exists []. cbn. now rewrite app_nil_r.
  - cbn [attach_all]. unfold bind.
    destruct (attach_log f log) as (evs1 & E1 & F1 & D1 & A1).
    destruct (attach f empty_acc log) as [d1 log1]. cbn [fst snd] in *.
    rewrite attach_all_merge.
    destruct (IH log1) as (evs2 & E2 & F2 & D2 & A2).
    destruct (attach_all files empty_acc log1) as [d2 log2]. cbn [fst snd] in *.
    exists (evs1 ++ evs2). subst log1 log2.
    rewrite frames_of_app, deletes_of_app, recorded_from_app, F1, F2, D1, D2, A1, A2.
    rewrite <- List.app_assoc. auto.
Qed.

(** *** The whole request *)

Lemma ask_question_cases payload log :
  (exists detail, ask_question payload log = (HTTPException 400 detail, log)) \/
  (board_of payload ∈ ALLOWED_BOARDS /\
   (question_of payload <> "" \/ files_of payload <> [])).
Proof.
  destruct (decide (board_of payload ∈ ALLOWED_BOARDS)) as [Hb|Hb];
    [| left; eexists; now apply ask_question_invalid_board].
  destruct (String.eqb_spec (question_of payload) "") as [Hq|Hq]; [| now right; auto].
  destruct (files_of payload) as [|f fs] eqn:Hf; [| now right; auto].
  left. eexists. now apply ask_question_missing_input.
Qed.

Lemma upload_returned_was_created raw mime_type name before handle :
  (upload_file_to_gemini raw mime_type name before).1 = Ok handle ->
  exists uploaded,
    upload_answer client (before ++ [Called (files_upload raw mime_type name)])
      = Ok uploaded.
Proof.
  unfold upload_file_to_gemini, bind, invoke.
  destruct (upload_answer client _) as [u|e]; [now eexists | discriminate].
Qed.

(** Every recorded handle comes from an upload call that returned a file. *)
Lemma recorded_le_created before evs :
  length (recorded_from before evs) <= length (created_from before evs).
Proof.
  revert before. induction evs as [|ev evs IH]; intros before; [reflexivity |].
  destruct ev as [[raw mime_type name|n|n|m c]|fr];
    cbn [recorded_from created_from]; try apply IH.
  rewrite !length_app. specialize (IH (before ++ [Called (files_upload raw mime_type name)])).
  destruct ((upload_file_to_gemini raw mime_type name before).1) as [[u n]|e] eqn:U.
  - destruct (upload_returned_was_created _ _ _ _ _ U) as [uploaded ->].
    destruct (from_uri_error u "application/pdf"); cbn [length]; lia.
  - cbn [length]. lia.
Qed.


(** *** Single attachments *)

Lemma truthy_text s : s <> "" -> truthy (Some s) = true.
Proof. intros H. cbn. now apply String.eqb_neq in H as ->. Qed.

Lemma attach_skipped f st log :
  truthy (get_default (f_base64 f) "") = false \/
  truthy (get_default (f_mimeType f) "") = false ->
  attach f st log = (st, log).
Proof. intros [H|H]; unfold attach; rewrite H; [| rewrite orb_true_r]; reflexivity. Qed.

Lemma attach_unsupported f st log mime b64 :
  f_mimeType f = Text mime -> mime <> "" -> mime ∉ SUPPORTED_MIME_TYPES ->
  f_base64 f = Text b64 -> b64 <> "" ->
  attach f st log
    = (add_error (unsupported_error (get_default (f_name f) "file") mime) st, log).
Proof.
  intros Hm Hm0 Hun Hb Hb0. unfold attach. rewrite Hm, Hb.
  cbn [get_default str]. rewrite !truthy_text by assumption. cbn [negb orb].
  now rewrite (bool_decide_eq_false_2 _ Hun).
Qed.

Lemma attach_text f st log b64 raw :
  f_mimeType f = Text "text/plain" ->
  f_base64 f = Text b64 -> b64 <> "" -> b64decode b64 = Ok raw ->
  attach f st log
    = (add_text (text_block (get_default (f_name f) "file")
                   (decode_utf8_replace raw)) st, log).
Proof.
  intros Hm Hb Hb0 Hdec. unfold attach. rewrite Hm, Hb.
  cbn [get_default str]. rewrite (truthy_text b64) by assumption.
  assert (Hin : "text/plain" ∈ SUPPORTED_MIME_TYPES) by decide_member.
  rewrite (bool_decide_eq_true_2 _ Hin), Hdec. reflexivity.
Qed.

Lemma attach_pdf f st log b64 raw :
  f_mimeType f = Text "application/pdf" ->
  f_base64 f = Text b64 -> b64 <> "" -> b64decode b64 = Ok raw ->
  let name := get_default (f_name f) "file" in
  attach f st log
    = (pdf_outcome name raw
         (upload_file_to_gemini raw "application/pdf" name log).1 st,
       (upload_file_to_gemini raw "application/pdf" name log).2).
Proof.
  intros Hm Hb Hb0 Hdec. cbv zeta. unfold attach. rewrite Hm, Hb.
  cbn [get_default str]. rewrite (truthy_text b64) by assumption.
  assert (Hin : "application/pdf" ∈ SUPPORTED_MIME_TYPES) by decide_member.
  rewrite (truthy_text "application/pdf") by discriminate. cbn [negb orb].
  rewrite (bool_decide_eq_true_2 _ Hin), Hdec, String.eqb_refl. cbn [negb].
  cbv zeta. unfold bind, Part_from_uri, Part_from_bytes.
  destruct (upload_file_to_gemini _ _ _ log) as [[[u n]|e] log'];
    cbn [fst snd pdf_outcome]; unfold pdf_fallback.
  - destruct (from_uri_error u "application/pdf"); [| reflexivity].
    now destruct (from_bytes_error _ _).
  - now destruct (from_bytes_error _ _).
Qed.

Lemma upload_poll_raises raw mime_type name log uploaded e log' :
  upload_answer client (log ++ [Called (files_upload raw mime_type name)])
    = Ok uploaded ->
  poll max_attempts name uploaded
    (log ++ [Called (files_upload raw mime_type name)]) = (Raise e, log') ->
  upload_file_to_gemini raw mime_type name log
    = (Raise ("Failed to upload " +:+ str name +:+ ": " +:+ e), log').
Proof.
  intros Hup Hpoll. unfold upload_file_to_gemini, bind, invoke.
  now rewrite Hup, Hpoll.
Qed.

Lemma attach_all_app files1 files2 st log :
  attach_all (files1 ++ files2) st log
    = attach_all files2 (attach_all files1 st log).1 (attach_all files1 st log).2.
Proof.
  revert st log. induction files1 as [|f fs IH]; intros st log; [reflexivity |].
  cbn [app attach_all]. unfold bind.
  destruct (attach f st log) as [st1 log1]. apply IH.
Qed.

(** The response of a request that passes validation, in terms of what the
    loop adds to the empty state. *)
Lemma ask_question_response payload log :
  board_of payload ∈ ALLOWED_BOARDS ->
  question_of payload <> "" \/ files_of payload <> [] ->
  let d := (attach_all (files_of payload) empty_acc log).1 in
  let question := if String.eqb (question_of payload) ""
                  then default_question else question_of payload in
  ask_question payload log =
    (StreamingResponse
       (if String.eqb (model_choice_of payload) "t2"
        then "gemini-3-flash-preview" else default_model)
       (contents d ++
        [from_text
           ((head_of payload +:+ question +:+ tail_of payload) +:+
            prompt_text d +:+
            match file_errors d with
            | [] => ""
            | _ :: _ => errors_note (file_errors d)
            end)])
       (uploaded_file_uris d),
     (attach_all (files_of payload) empty_acc log).2).
Proof.
  intros Hb Hqf. cbv zeta.
  destruct (ask_question_streams payload log Hb Hqf) as (q & m & -> & -> & E).
  cbv zeta in E. rewrite E, attach_all_merge.
  destruct (attach_all (files_of payload) empty_acc log) as [d log'].
  unfold final_prompt.
  cbn [fst snd merge contents uploaded_file_uris file_errors prompt_text app].
  destruct (file_errors d).
  - now rewrite append_nil_r.
  - now rewrite append_assoc.
Qed.

(** *** Defaults and the two checks *)

Lemma rstrip_all_space s : all_space s = true -> rstrip s = "".
Proof.
  induction s as [|c r IH]; [reflexivity |].
  cbn [all_space]. intros H. apply andb_true_iff in H as [Hc Hr].
  cbn [rstrip]. now rewrite (IH Hr), Hc.
Qed.

Lemma no_question_empty payload : no_question payload -> question_of payload = "".
Proof.
  unfold no_question, question_of, strip.
  destruct (get (p_question payload)) as [s|]; [| reflexivity].
  intros H. cbn [or_else].
  destruct (String.eqb_spec s "") as [->|_]; [reflexivity |].
  now rewrite (rstrip_all_space _ H).
Qed.

Lemma unset_or_else e d : unset e -> or_else (get e) d = d.
Proof. now intros [->|[->| ->]]. Qed.

Lemma ask_question_valid_board payload log :
  board_of payload ∈ ALLOWED_BOARDS ->
  (ask_question payload log).1 = HTTPException 400 "Question or file required" \/
  exists parts uris,
    (ask_question payload log).1 =
      StreamingResponse
        (if String.eqb (model_choice_of payload) "t2"
         then "gemini-3-flash-preview" else default_model) parts uris.
Proof.
  intros Hb.
  destruct (String.eqb_spec (question_of payload) "") as [Hq|Hq].
  - destruct (files_of payload) as [|f fs] eqn:Hf.
    + left. now rewrite ask_question_missing_input.
    + right. rewrite ask_question_response; [now eexists _, _ | assumption |].
      right. now rewrite Hf.
  - right. rewrite ask_question_response; [now eexists _, _ | assumption | now left].
Qed.

Lemma default_question_substituted payload log :
  question_of payload = "" -> files_of payload <> [] ->
  ask_question payload log
    = ask_question (with_question (Text default_question) payload) log.
Proof.
  intros Hq Hf. unfold ask_question.
  fold (board_of payload) (question_of payload) (files_of payload).
  cbn [with_question p_board p_class_level p_subject p_chapter p_question
       p_model p_files get].
  fold (board_of payload) (files_of payload).
  change (strip (or_else (Some default_question) ""))
    with default_question.
  rewrite Hq. destruct (files_of payload) as [|f fs]; [congruence |].
  reflexivity.
Qed.

(** C4.  With a question that is missing, empty or only whitespace: if the
    file list is empty too, the request is answered with HTTP 400 and nothing
    else happens; if there is at least one file, the question-or-file check
    does not reject the request, which is handled exactly as if it had asked
    the default analysis sentence: in particular (the board being an allowed
    one) the handler answers with a stream whose prompt text carries that
    sentence where the question goes, right after the head of the template. *)
Theorem missing_input_rule payload log :
  no_question payload ->
  (files_of payload = [] ->
     exists detail, serve payload log = (HTTPException 400 detail, log)) /\
  (files_of payload <> [] ->
     (forall status, (ask_question payload log).1
                     <> HTTPException status "Question or file required") /\
     ask_question payload log
       = ask_question (with_question (Text default_question) payload) log /\
     (board_of payload ∈ ALLOWED_BOARDS ->
        exists model_name parts rest uris,
          (ask_question payload log).1 =
            StreamingResponse model_name
              (parts ++ [from_text (head_of payload +:+ default_question +:+ rest)])
              uris)).
Proof.
  intros Hnq. apply no_question_empty in Hnq. split.
  - intros Hf. unfold serve, bind.
    destruct (decide (board_of payload ∈ ALLOWED_BOARDS)) as [Hb|Hb].
    + rewrite ask_question_missing_input by assumption. now eexists.
    + rewrite ask_question_invalid_board by assumption. now eexists.
  - intros Hf.
    assert (Hstream : board_of payload ∈ ALLOWED_BOARDS ->
              exists model_name parts rest uris,
                (ask_question payload log).1 =
                  StreamingResponse model_name
                    (parts ++
                     [from_text (head_of payload +:+ default_question +:+ rest)])
                    uris).
    { intros Hb. rewrite ask_question_response by auto. cbv zeta. cbn [fst].
      rewrite Hnq. cbn [String.eqb].
      eexists _, _, _, _. now rewrite !append_assoc. }
    split; [| split; [now apply default_question_substituted | exact Hstream]].
    intros status.
    destruct (decide (board_of payload ∈ ALLOWED_BOARDS)) as [Hb|Hb].
    + destruct (Hstream Hb) as (m & parts & rest & uris & ->). discriminate.
    + rewrite ask_question_invalid_board by assumption. discriminate.
Qed.

Lemma other_model_is_default payload log :
  model_choice_of payload <> "t2" ->
  ask_question payload log = ask_question (with_model Absent payload) log.
Proof.
  intros Hm. apply String.eqb_neq in Hm. unfold ask_question.
  fold (model_choice_of payload).
  cbn [with_model p_board p_class_level p_subject p_chapter p_question
       p_model p_files get].
  rewrite Hm. reflexivity.
Qed.

(** C10.  A board that is missing, [null] or empty is replaced by "ICSE"
    before stripping and uppercasing, so the board check passes and the
    request is not answered with "Invalid board".  A model tag that does not
    lowercase to "t2" (a missing, [null] or empty one counts as "t1") never
    makes the handler fail: the request is handled exactly as if it carried
    no model tag, no stream it returns names another model than the default
    one, and whenever the request passes the two checks the response is a
    stream for the default model. *)
Theorem defaults_applied payload log :
  (unset (p_board payload) ->
     board_of payload = "ICSE" /\
     board_of payload ∈ ALLOWED_BOARDS /\
     forall status, (ask_question payload log).1
                    <> HTTPException status "Invalid board") /\
  (unset (p_model payload) -> model_choice_of payload = "t1") /\
  (model_choice_of payload <> "t2" ->
     ask_question payload log = ask_question (with_model Absent payload) log /\
     (forall model_name parts uris,
         (ask_question payload log).1 = StreamingResponse model_name parts uris ->
         model_name = default_model) /\
     (board_of payload ∈ ALLOWED_BOARDS ->
      question_of payload <> "" \/ files_of payload <> [] ->
      exists parts uris,
        (ask_question payload log).1 = StreamingResponse default_model parts uris)).
Proof.
  split; [| split].
  - intros Hu.
    assert (Hb : board_of payload = "ICSE")
      by (unfold board_of; now rewrite unset_or_else).
    assert (Hin : board_of payload ∈ ALLOWED_BOARDS)
      by (rewrite Hb; decide_member).
    split; [exact Hb |]. split; [exact Hin |].
    intros status.
    destruct (ask_question_valid_board payload log Hin) as [-> | (ps & us & ->)];
      discriminate.
  - intros Hu. unfold model_choice_of. now rewrite unset_or_else.
  - intros Hm. split; [now apply other_model_is_default |].
    apply String.eqb_neq in Hm. split.
    + intros model_name parts uris E.
      destruct (decide (board_of payload ∈ ALLOWED_BOARDS)) as [Hb|Hb].
      * destruct (ask_question_valid_board payload log Hb) as [E' | (ps & us & E')];
          rewrite E' in E; [discriminate |].
        rewrite Hm in E. now injection E as <- _ _.
      * rewrite ask_question_invalid_board in E by assumption. discriminate.
    + intros Hb Hqf. rewrite ask_question_response by assumption.
      cbv zeta. cbn [fst]. rewrite Hm. now eexists _, _.
Qed.

(** *** Attachments inside a request *)

Lemma contains_append needle a s b :
  contains needle s = true -> contains needle (a +:+ s +:+ b) = true.
Proof.
  intros H. apply contains_inv in H as (x & y & ->).
  rewrite !append_assoc, <- (append_assoc a x). apply contains_intro.
Qed.

Lemma attach_all_split pre f post log :
  let r_pre := attach_all pre empty_acc log in
  let r_f := attach f empty_acc r_pre.2 in
  let r_post := attach_all post empty_acc r_f.2 in
  attach_all (pre ++ f :: post) empty_acc log
    = (merge (merge r_pre.1 r_f.1) r_post.1, r_post.2).
Proof.
  cbv zeta. rewrite attach_all_app. cbn [attach_all]. unfold bind.
  destruct (attach_all pre empty_acc log) as [d1 log1]. cbn [fst snd].
  rewrite attach_merge.
  destruct (attach f empty_acc log1) as [d2 log2]. cbn [fst snd].
  now rewrite attach_all_merge.
Qed.

(** No attachment can abort a request that passed the two checks. *)
Lemma attachments_never_abort payload (f : Attachment) log :
  board_of payload ∈ ALLOWED_BOARDS -> In f (files_of payload) ->
  exists model_name parts uris,
    (ask_question payload log).1 = StreamingResponse model_name parts uris.
Proof.
  intros Hb Hin. rewrite ask_question_response; [now eexists _, _, _ | assumption |].
  right. intros E. now rewrite E in Hin.
Qed.

(** C5 (amended).  An attachment with a non-empty payload whose mime type is
    non-empty and outside the supported set does not abort the request: its
    step of the loop only records the error string "File '<name>' (<mime>)
    is unsupported" and calls nothing, the loop goes on with the attachments
    after it, and the prompt text sent with the request ends with the note
    that lists the errors, that string among them. *)
Theorem unsupported_attachment_noted payload pre f post mime b64 log :
  board_of payload ∈ ALLOWED_BOARDS ->
  files_of payload = pre ++ f :: post ->
  f_mimeType f = Text mime -> mime <> "" -> mime ∉ SUPPORTED_MIME_TYPES ->
  f_base64 f = Text b64 -> b64 <> "" ->
  let note := unsupported_error (get_default (f_name f) "file") mime in
  (forall st log1, attach f st log1 = (add_error note st, log1)) /\
  (forall st log1,
      attach_all (pre ++ f :: post) st log1
        = attach_all post (add_error note (attach_all pre st log1).1)
            (attach_all pre st log1).2) /\
  exists model_name parts before errors uris,
    (ask_question payload log).1 =
      StreamingResponse model_name
        (parts ++ [from_text (before +:+ errors_note errors)]) uris /\
    In note errors /\
    contains note (before +:+ errors_note errors) = true.
Proof.
  intros Hb Hfiles Hm Hm0 Hun Hp Hp0. cbv zeta.
  assert (Hstep : forall st log1,
             attach f st log1
             = (add_error (unsupported_error (get_default (f_name f) "file") mime) st,
                log1))
    by (intros; now apply attach_unsupported with (b64 := b64)).
  split; [exact Hstep |]. split.
  - intros st log1. rewrite attach_all_app. cbn [attach_all]. unfold bind.
    now rewrite Hstep.
  - rewrite ask_question_response; [| assumption | right; rewrite Hfiles; now destruct pre].
    cbv zeta. cbn [fst]. rewrite Hfiles, attach_all_split. cbv zeta.
    rewrite Hstep. cbn [fst snd].
    set (d1 := (attach_all pre empty_acc log).1).
    set (d3 := (attach_all post empty_acc _).1).
    set (note := unsupported_error _ mime).
    cbn [merge add_error empty_acc file_errors prompt_text contents
         uploaded_file_uris app].
    destruct ((file_errors d1 ++ [note]) ++ file_errors d3) as [|e0 es] eqn:E.
    { apply (f_equal (@length string)) in E.
      rewrite !length_app in E. cbn in E. lia. }
    rewrite <- E. rewrite <- append_assoc.
    eexists _, _, _, _, _. split; [reflexivity |].
    assert (Hin : In note ((file_errors d1 ++ [note]) ++ file_errors d3)).
    { apply in_or_app. left. apply in_or_app. right. now left. }
    split; [exact Hin |].
    unfold errors_note.
    rewrite <- (append_assoc nl), <- (append_assoc (nl +:+ nl)), <- append_assoc.
    apply contains_append. now apply contains_member.
Qed.

(** C6 (amended).  A text/plain attachment with a non-empty payload that
    base64-decodes to [raw] adds to the request nothing but text: its step of
    the loop appends to the prompt text the block made of a blank line, the
    marker "--- Content of <name> ---", the UTF-8 decoding of [raw] (with
    replacement, a total function) and the marker "--- End of <name> ---";
    it calls nothing and adds no part.  The parts before the final prompt
    text, the recorded handles and the events of the request are those of the
    same request without the attachment, and the prompt text sent contains
    the block. *)
Theorem text_attachment_spliced payload pre f post b64 raw log :
  board_of payload ∈ ALLOWED_BOARDS ->
  files_of payload = pre ++ f :: post ->
  f_mimeType f = Text "text/plain" ->
  f_base64 f = Text b64 -> b64 <> "" -> b64decode b64 = Ok raw ->
  let name := str (get_default (f_name f) "file") in
  let block :=
    nl +:+ nl +:+ "--- Content of " +:+ name +:+ " ---" +:+ nl +:+
    decode_utf8_replace raw +:+ nl +:+ "--- End of " +:+ name +:+ " ---" in
  (forall st log1, attach f st log1 = (add_text block st, log1)) /\
  exists model_name prompt_sent,
    ask_question payload log =
      (StreamingResponse model_name
         (contents (attach_all (pre ++ post) empty_acc log).1 ++
          [from_text prompt_sent])
         (uploaded_file_uris (attach_all (pre ++ post) empty_acc log).1),
       (attach_all (pre ++ post) empty_acc log).2) /\
    contains block prompt_sent = true.
Proof.
  intros Hb Hfiles Hm Hp Hp0 Hdec. cbv zeta.
  assert (Hstep : forall st log1,
             attach f st log1
             = (add_text (text_block (get_default (f_name f) "file")
                            (decode_utf8_replace raw)) st, log1))
    by (intros; now apply attach_text with (b64 := b64)).
  split; [exact Hstep |].
  rewrite ask_question_response; [| assumption | right; rewrite Hfiles; now destruct pre].
  cbv zeta. rewrite Hfiles, attach_all_split. cbv zeta.
  rewrite Hstep. cbn [fst snd].
  rewrite (attach_all_app pre post).
  rewrite (attach_all_merge post (attach_all pre empty_acc log).1).
  set (r1 := attach_all pre empty_acc log).
  set (r3 := attach_all post empty_acc r1.2).
  set (block := text_block _ _).
  cbn [fst snd merge add_text empty_acc file_errors prompt_text contents
       uploaded_file_uris app].
  rewrite !app_nil_r.
  eexists _, _. split; [reflexivity |].
  apply contains_append. rewrite append_assoc, append_nil_l.
  exact (contains_intro block _ _).
Qed.

(** *** PDF uploads that fail *)

(** Whatever makes [upload_file_to_gemini] raise, the PDF branch goes to the
    inline fallback. *)
Lemma attach_pdf_upload_raises f st log b64 raw e log' :
  f_mimeType f = Text "application/pdf" ->
  f_base64 f = Text b64 -> b64 <> "" -> b64decode b64 = Ok raw ->
  let name := get_default (f_name f) "file" in
  upload_file_to_gemini raw "application/pdf" name log = (Raise e, log') ->
  attach f st log =
    (match from_bytes_error raw "application/pdf" with
     | None => add_part (from_bytes raw "application/pdf") st
     | Some _ =>
         add_error ("Could not process PDF '" +:+ str name +:+ "': " +:+ e) st
     end, log').
Proof.
  intros Hm Hp Hp0 Hdec name Hup.
  rewrite (attach_pdf f st log b64 raw Hm Hp Hp0 Hdec). cbv zeta.
  fold name. now rewrite Hup.
Qed.

(** C7.  A PDF attachment whose upload is seen in the FAILED state (at the
    first test or after [k] idle polls, [k] below the bound of 30) does not
    abort the request: [upload_file_to_gemini] raises, and the loop step
    inlines the raw bytes as a part; only when [Part.from_bytes] raises too
    does it record an error instead.  The request itself still gets its
    stream. *)
Theorem failed_upload_falls_back f st log b64 raw uploaded k uploaded' log' :
  f_mimeType f = Text "application/pdf" ->
  f_base64 f = Text b64 -> b64 <> "" -> b64decode b64 = Ok raw ->
  let name := get_default (f_name f) "file" in
  let started := log ++ [Called (files_upload raw "application/pdf" name)] in
  upload_answer client started = Ok uploaded ->
  polls client k uploaded started = Some (uploaded', log') ->
  k < max_attempts ->
  file_state_name uploaded' = "FAILED" ->
  let e := "Failed to upload " +:+ str name +:+
           ": File processing failed: " +:+ str name in
  upload_file_to_gemini raw "application/pdf" name log = (Raise e, log') /\
  attach f st log =
    (match from_bytes_error raw "application/pdf" with
     | None => add_part (from_bytes raw "application/pdf") st
     | Some _ =>
         add_error ("Could not process PDF '" +:+ str name +:+ "': " +:+ e) st
     end, log') /\
  (forall payload log0,
      board_of payload ∈ ALLOWED_BOARDS -> In f (files_of payload) ->
      exists model_name parts uris,
        (ask_question payload log0).1 = StreamingResponse model_name parts uris).
Proof.
  intros Hm Hp Hp0 Hdec name started Hup Hpolls Hk Hst e.
  assert (Hraise : upload_file_to_gemini raw "application/pdf" name log
                   = (Raise e, log')).
  { apply (upload_poll_raises _ _ _ _ uploaded); [exact Hup |].
    now apply (poll_failed k _ _ _ _ uploaded'). }
  split; [exact Hraise |]. split.
  - now apply (attach_pdf_upload_raises f st log b64).
  - intros payload log0. apply attachments_never_abort.
Qed.

(** C8 (amended).  The inline fallback is reached whenever
    [upload_file_to_gemini] raises, and the timeout is one of the ways it
    raises: when the loop goes round all 30 times without seeing ACTIVE or
    FAILED, the exception "File processing timeout" is wrapped like any other
    and the loop step inlines the raw bytes of the PDF as a part (recording an
    error only if [Part.from_bytes] raises too). *)
Theorem timed_out_upload_falls_back f st log b64 raw uploaded uploaded' log' :
  f_mimeType f = Text "application/pdf" ->
  f_base64 f = Text b64 -> b64 <> "" -> b64decode b64 = Ok raw ->
  let name := get_default (f_name f) "file" in
  let started := log ++ [Called (files_upload raw "application/pdf" name)] in
  upload_answer client started = Ok uploaded ->
  polls client max_attempts uploaded started = Some (uploaded', log') ->
  let e := "Failed to upload " +:+ str name +:+
           ": File processing timeout for: " +:+ str name in
  upload_file_to_gemini raw "application/pdf" name log = (Raise e, log') /\
  attach f st log =
    (match from_bytes_error raw "application/pdf" with
     | None => add_part (from_bytes raw "application/pdf") st
     | Some _ =>
         add_error ("Could not process PDF '" +:+ str name +:+ "': " +:+ e) st
     end, log').
Proof.
  intros Hm Hp Hp0 Hdec name started Hup Hpolls e.
  assert (Hraise : upload_file_to_gemini raw "application/pdf" name log
                   = (Raise e, log')).
  { apply (upload_poll_raises _ _ _ _ uploaded); [exact Hup |].
    now apply (poll_timeout _ _ _ _ uploaded'). }
  split; [exact Hraise |].
  now apply (attach_pdf_upload_raises f st log b64).
Qed.

(** ** Beyond the claims: upload_file_to_gemini *)

Lemma polls_log k uploaded log uploaded' log' :
  polls client k uploaded log = Some (uploaded', log') ->
  exists gets, log' = log ++ gets /\ only_gets gets /\ length gets = k.
Proof.
  revert uploaded log. induction k as [|k IH]; intros u log H; cbn [polls] in H.
  - injection H as _ <-. exists []. rewrite app_nil_r. repeat split. constructor.
  - destruct (String.eqb (file_state_name u) "ACTIVE"); [discriminate |].
    destruct (String.eqb (file_state_name u) "FAILED"); [discriminate |].
    destruct (get_answer client _) as [u1|e]; [| discriminate].
    destruct (IH _ _ H) as (gets & -> & G & L).
    exists (Called (files_get (file_name u)) :: gets).
    rewrite <- List.app_assoc. split; [reflexivity |]. split.
    + constructor; [now eexists | exact G].
    + cbn. now rewrite L.
Qed.

Lemma poll_active k attempts name uploaded log uploaded' log' :
  polls client k uploaded log = Some (uploaded', log') ->
  k < attempts ->
  file_state_name uploaded' = "ACTIVE" ->
  poll attempts name uploaded log
    = (Ok (file_uri uploaded', file_name uploaded'), log').
Proof.
  intros H Hk Hst.
  replace attempts with (k + S (attempts - S k)) by lia.
  rewrite (poll_after_polls _ _ _ _ _ _ _ H). cbn [poll]. now rewrite Hst.
Qed.

Lemma poll_bounded attempts name uploaded log :
  exists gets,
    (poll attempts name uploaded log).2 = log ++ gets /\
    only_gets gets /\ length gets <= attempts.
Proof.
  revert uploaded log. induction attempts as [|n IH]; intros u log; cbn [poll].
  - exists []. rewrite app_nil_r. repeat split; [constructor | cbn; lia].
  - destruct (String.eqb (file_state_name u) "ACTIVE");
      [exists []; rewrite app_nil_r; repeat split; [constructor | cbn; lia] |].
    destruct (String.eqb (file_state_name u) "FAILED");
      [exists []; rewrite app_nil_r; repeat split; [constructor | cbn; lia] |].
    unfold bind, invoke.
    destruct (get_answer client _) as [u'|e].
    + destruct (IH u' (log ++ [Called (files_get (file_name u))])) as (gets & E & G & L).
      exists (Called (files_get (file_name u)) :: gets).
      rewrite E, <- List.app_assoc. split; [reflexivity |]. split.
      * constructor; [now eexists | exact G].
      * cbn. lia.
    + exists [Called (files_get (file_name u))].
      split; [reflexivity |]. split.
      * constructor; [now eexists | constructor].
      * cbn. lia.
Qed.

Lemma poll_raise_reason attempts name uploaded log e log' :
  poll attempts name uploaded log = (Raise e, log') ->
  e = "File processing failed: " +:+ str name \/
  e = "File processing timeout for: " +:+ str name \/
  exists log1, get_answer client log1 = Raise e.
Proof.
  revert uploaded log. induction attempts as [|n IH]; intros u log; cbn [poll].
  - unfold ret. intros H. injection H as <- _. auto.
  - destruct (String.eqb (file_state_name u) "ACTIVE"); [discriminate |].
    destruct (String.eqb (file_state_name u) "FAILED").
    + unfold ret. intros H. injection H as <- _. auto.
    + unfold bind, invoke.
      destruct (get_answer client _) as [u'|e'] eqn:G.
      * apply IH.
      * unfold ret. intros H. injection H as <- _. right. right. eauto.
Qed.

Lemma upload_active raw mime_type name log uploaded k uploaded' log' :
  upload_answer client (log ++ [Called (files_upload raw mime_type name)])
    = Ok uploaded ->
  polls client k uploaded (log ++ [Called (files_upload raw mime_type name)])
    = Some (uploaded', log') ->
  k < max_attempts ->
  file_state_name uploaded' = "ACTIVE" ->
  upload_file_to_gemini raw mime_type name log
    = (Ok (file_uri uploaded', file_name uploaded'), log').
Proof.
  intros Hup Hpolls Hk Hst.
  unfold upload_file_to_gemini, bind, invoke. rewrite Hup.
  now rewrite (poll_active k _ _ _ _ uploaded' log').
Qed.

(** X1.  When the file shows ACTIVE at the first test or after [k] idle polls
    ([k] below 30), [upload_file_to_gemini] returns the uri and the name of
    the file object that showed it, having made one upload call and exactly
    [k] polls. *)
Theorem upload_returns_active_file raw mime_type name log uploaded k uploaded' log' :
  let started := log ++ [Called (files_upload raw mime_type name)] in
  upload_answer client started = Ok uploaded ->
  polls client k uploaded started = Some (uploaded', log') ->
  k < max_attempts ->
  file_state_name uploaded' = "ACTIVE" ->
  upload_file_to_gemini raw mime_type name log
    = (Ok (file_uri uploaded', file_name uploaded'), log') /\
  exists gets, log' = started ++ gets /\ only_gets gets /\ length gets = k.
Proof.
  intros started Hup Hpolls Hk Hst. split.
  - now apply (upload_active _ _ _ _ uploaded k).
  - now apply (polls_log k uploaded started uploaded').
Qed.

(** X2.  Whatever the service answers, one call of [upload_file_to_gemini]
    makes exactly one [client.files.upload] call, first, and after it nothing
    but [client.files.get] calls, at most 30 of them. *)
Theorem upload_polls_bounded raw mime_type name log :
  exists gets,
    (upload_file_to_gemini raw mime_type name log).2
      = log ++ Called (files_upload raw mime_type name) :: gets /\
    only_gets gets /\ length gets <= max_attempts.
Proof.
  unfold upload_file_to_gemini, bind, invoke.
  destruct (upload_answer client _) as [u|e].
  - destruct (poll_bounded max_attempts name u
                (log ++ [Called (files_upload raw mime_type name)]))
      as (gets & E & G & L).
    exists gets. destruct (poll _ _ _ _) as [[h|e] log']; cbn [snd] in *;
      subst log'; rewrite <- List.app_assoc; auto.
  - exists []. repeat split; [constructor | cbn; lia].
Qed.

(** X3.  Every exception [upload_file_to_gemini] raises carries the message
    "Failed to upload <name>: <reason>", and the reason is the message of an
    exception of [client.files.upload] or [client.files.get], or "File
    processing failed: <name>", or "File processing timeout for: <name>". *)
Theorem upload_failure_message raw mime_type name log e log' :
  upload_file_to_gemini raw mime_type name log = (Raise e, log') ->
  exists reason,
    e = "Failed to upload " +:+ str name +:+ ": " +:+ reason /\
    (reason = "File processing failed: " +:+ str name \/
     reason = "File processing timeout for: " +:+ str name \/
     (exists log1, upload_answer client log1 = Raise reason) \/
     (exists log1, get_answer client log1 = Raise reason)).
Proof.
  unfold upload_file_to_gemini, bind, invoke.
  destruct (upload_answer client _) as [u|e0] eqn:U.
  - destruct (poll _ _ _ _) as [[h|e1] log1] eqn:P; unfold ret; [discriminate |].
    intros H. injection H as <- _. exists e1. split; [reflexivity |].
    destruct (poll_raise_reason _ _ _ _ _ _ P) as [->|[->|G]]; auto.
  - unfold ret. intros H. injection H as <- _. exists e0.
    split; [reflexivity |]. right. right. left. eauto.
Qed.

(** ** Beyond the claims: the attachment loop *)

Lemma empty_not_supported : "" ∉ SUPPORTED_MIME_TYPES.
Proof. decide_member. Qed.

Lemma image_type_supported mime :
  is_image_type mime = true ->
  mime ∈ SUPPORTED_MIME_TYPES /\
  String.eqb mime "application/pdf" = false /\
  String.eqb mime "text/plain" = false.
Proof.
  unfold is_image_type. intros H.
  repeat (apply orb_true_iff in H as [H|H]);
    apply String.eqb_eq in H; subst mime;
    (split; [decide_member | split; reflexivity]).
Qed.

(** X4.  A PDF attachment whose upload shows ACTIVE within the bound is
    referenced only if [Part.from_uri] then builds the part: in that case the
    loop adds one [from_uri] part with the uri the service gave and the mime
    type application/pdf, and records the file's name for the cleanup.  If
    [Part.from_uri] raises, the [except] clause runs although the upload
    returned: the bytes are inlined (or, when [Part.from_bytes] raises too,
    an error with the message of [Part.from_uri] is recorded) and the name
    is not recorded. *)
Theorem uploaded_pdf_referenced f st log b64 raw uploaded k uploaded' log' :
  f_mimeType f = Text "application/pdf" ->
  f_base64 f = Text b64 -> b64 <> "" -> b64decode b64 = Ok raw ->
  let name := get_default (f_name f) "file" in
  let started := log ++ [Called (files_upload raw "application/pdf" name)] in
  upload_answer client started = Ok uploaded ->
  polls client k uploaded started = Some (uploaded', log') ->
  k < max_attempts ->
  file_state_name uploaded' = "ACTIVE" ->
  attach f st log =
    (match from_uri_error (file_uri uploaded') "application/pdf" with
     | None =>
         {| contents :=
              contents st ++ [from_uri (file_uri uploaded') "application/pdf"];
            uploaded_file_uris := uploaded_file_uris st ++ [file_name uploaded'];
            file_errors := file_errors st;
            prompt_text := prompt_text st |}
     | Some e =>
         match from_bytes_error raw "application/pdf" with
         | None =>
             {| contents := contents st ++ [from_bytes raw "application/pdf"];
                uploaded_file_uris := uploaded_file_uris st;
                file_errors := file_errors st;
                prompt_text := prompt_text st |}
         | Some _ =>
             {| contents := contents st;
                uploaded_file_uris := uploaded_file_uris st;
                file_errors :=
                  file_errors st ++
                  ["Could not process PDF '" +:+ str name +:+ "': " +:+ e];
                prompt_text := prompt_text st |}
         end
     end, log').
Proof.
  intros Hm Hp Hp0 Hdec name started Hup Hpolls Hk Hst.
  rewrite (attach_pdf f st log b64 raw Hm Hp Hp0 Hdec). cbv zeta. fold name.
  rewrite (upload_active _ _ _ _ uploaded k uploaded' log') by assumption.
  cbn [fst snd pdf_outcome]. unfold pdf_fallback.
  destruct (from_uri_error _ _); [| reflexivity].
  now destruct (from_bytes_error _ _).
Qed.

(** X5.  An image attachment (jpeg, png, gif or webp) with a non-empty
    decodable payload is inlined as a [from_bytes] part with its own mime
    type, without any call on the remote service; if [Part.from_bytes]
    raises, the error "Could not process image '<name>': <message>" is
    recorded instead. *)
Theorem image_inlined f st log mime b64 raw :
  is_image_type mime = true ->
  f_mimeType f = Text mime ->
  f_base64 f = Text b64 -> b64 <> "" -> b64decode b64 = Ok raw ->
  attach f st log =
    (match from_bytes_error raw mime with
     | None => add_part (from_bytes raw mime) st
     | Some e =>
         add_error ("Could not process image '" +:+
                    str (get_default (f_name f) "file") +:+ "': " +:+ e) st
     end, log).
Proof.
  intros Himg Hm Hp Hp0 Hdec.
  destruct (image_type_supported mime Himg) as (Hin & Hpdf & Htxt).
  assert (Hm0 : mime <> "").
  { intros ->. now apply empty_not_supported. }
  unfold attach. rewrite Hm, Hp. cbn [get_default str].
  rewrite !truthy_text by assumption. cbn [negb orb].
  rewrite (bool_decide_eq_true_2 _ Hin), Hdec, Hpdf, Htxt. cbn [negb].
  unfold Part_from_bytes. now destruct (from_bytes_error raw mime).
Qed.

(** X6.  When the payload of an attachment of a supported type does not
    base64-decode, the loop records "Could not decode '<name>': <message>"
    and goes on: nothing is uploaded (not even for a PDF), no part is added,
    no call is made. *)
Theorem undecodable_attachment_noted f st log mime b64 e :
  f_mimeType f = Text mime -> mime ∈ SUPPORTED_MIME_TYPES ->
  f_base64 f = Text b64 -> b64 <> "" -> b64decode b64 = Raise e ->
  attach f st log =
    ({| contents := contents st;
        uploaded_file_uris := uploaded_file_uris st;
        file_errors :=
          file_errors st ++
          ["Could not decode '" +:+ str (get_default (f_name f) "file") +:+
           "': " +:+ e];
        prompt_text := prompt_text st |}, log).
Proof.
  intros Hm Hin Hp Hp0 Hdec.
  assert (Hm0 : mime <> "").
  { intros ->. now apply empty_not_supported. }
  unfold attach. rewrite Hm, Hp. cbn [get_default str].
  rewrite !truthy_text by assumption. cbn [negb orb].
  now rewrite (bool_decide_eq_true_2 _ Hin), Hdec.
Qed.

(** ** Beyond the claims: what a request is made of *)

Lemma attach_shape f log :
  let d := (attach f empty_acc log).1 in
  Forall (fun p => is_attachment_part p = true) (contents d) /\
  length (contents d) + length (file_errors d) <= 1 /\
  length (List.filter is_remote_part (contents d))
    = length (uploaded_file_uris d).
Proof.
  cbv zeta. unfold attach.
  destruct (negb _ || negb _); [cbn; repeat split; [constructor | lia] |].
  destruct (negb (bool_decide _)); [cbn; repeat split; [constructor | lia] |].
  destruct (b64decode _) as [raw|e]; [| cbn; repeat split; [constructor | lia]].
  destruct (String.eqb _ "application/pdf").
  - cbv zeta. unfold bind.
    destruct (upload_file_to_gemini _ _ _ log) as [[[u n]|e] log'].
    + unfold Part_from_uri. destruct (from_uri_error u "application/pdf").
      * unfold Part_from_bytes. destruct (from_bytes_error _ _);
          cbn; repeat split; (constructor || lia || idtac); auto.
      * cbn. repeat split; [repeat constructor | lia].
    + unfold Part_from_bytes. destruct (from_bytes_error _ _);
        cbn; repeat split; (constructor || lia || idtac); auto.
  - destruct (String.eqb _ "text/plain"); [cbn; repeat split; [constructor | lia] |].
    unfold Part_from_bytes. destruct (from_bytes_error _ _);
      cbn; repeat split; (constructor || lia || idtac); auto.
Qed.

Lemma attach_all_shape files log :
  let d := (attach_all files empty_acc log).1 in
  Forall (fun p => is_attachment_part p = true) (contents d) /\
  length (contents d) + length (file_errors d) <= length files /\
  length (List.filter is_remote_part (contents d))
    = length (uploaded_file_uris d).
Proof.
  cbv zeta. revert log. induction files as [|f files IH]; intros log.
  - cbn. repeat split; [constructor | lia].
  - cbn [attach_all]. unfold bind.
    destruct (attach_shape f log) as (P1 & L1 & R1).
    destruct (attach f empty_acc log) as [d1 log1]. cbn [fst snd] in *.
    rewrite attach_all_merge.
    destruct (IH log1) as (P2 & L2 & R2).
    destruct (attach_all files empty_acc log1) as [d2 log2]. cbn [fst snd] in *.
    cbn [merge contents file_errors uploaded_file_uris].
    rewrite List.filter_app, !length_app, R1, R2.
    split; [now apply Forall_app |]. split; [cbn [length]; lia | reflexivity].
Qed.

Lemma attachment_part_not_text p :
  is_attachment_part p = true -> is_text_part p = false.
Proof. now destruct p. Qed.

(** X7.  The contents of every stream response are the parts of the
    attachments, in the order of the files and at most one per file, followed
    by the prompt text: the prompt is the last part and the only text part,
    and every reference to a remote file is typed application/pdf. *)
Theorem prompt_is_last_part payload log :
  board_of payload ∈ ALLOWED_BOARDS ->
  question_of payload <> "" \/ files_of payload <> [] ->
  exists parts prompt_sent,
    response_contents (ask_question payload log).1
      = parts ++ [from_text prompt_sent] /\
    Forall (fun p => is_text_part p = false) parts /\
    Forall (fun p => is_attachment_part p = true) parts /\
    length parts <= length (files_of payload).
Proof.
  intros Hb Hqf. rewrite ask_question_response by assumption.
  cbv zeta. cbn [fst response_contents].
  destruct (attach_all_shape (files_of payload) log) as (P & L & _).
  eexists _, _. split; [reflexivity |]. split; [| split; [exact P | lia]].
  eapply Forall_impl; [exact P |]. intros p. apply attachment_part_not_text.
Qed.

(** X8.  In every response the parts that reference a remote file are as
    many as the handles recorded for the cleanup: no remote file is
    referenced without being scheduled for deletion, and none is scheduled
    without being referenced. *)
Theorem remote_parts_match_handles payload log :
  length (List.filter is_remote_part
            (response_contents (ask_question payload log).1))
    = length (response_uris (ask_question payload log).1).
Proof.
  destruct (ask_question_cases payload log) as [[detail E] | [Hb Hqf]].
  - now rewrite E.
  - rewrite ask_question_response by assumption.
    cbv zeta. cbn [fst response_contents response_uris].
    destruct (attach_all_shape (files_of payload) log) as (_ & _ & R).
    rewrite List.filter_app, length_app, R. cbn. lia.
Qed.

Lemma attach_all_skipped files st log :
  forallb skipped files = true -> attach_all files st log = (st, log).
Proof.
  revert st log. induction files as [|f files IH]; intros st log H; [reflexivity |].
  cbn [forallb] in H. apply andb_true_iff in H as [Hf Hfs].
  cbn [attach_all]. unfold bind.
  assert (E : attach f st log = (st, log)).
  { unfold attach. unfold skipped in Hf. now rewrite Hf. }
  rewrite E. now apply IH.
Qed.

(** X9.  When nothing usable is attached (no file at all, or only files
    whose payload or mime type is missing, [null] or empty), the request that
    passes the two checks makes a single remote call, the generation call,
    with the prompt template as its only part: nothing is uploaded and
    nothing is deleted.  With an empty question and such files the prompt
    asks the default analysis sentence although no attachment is sent. *)
Theorem nothing_attached payload log :
  board_of payload ∈ ALLOWED_BOARDS ->
  question_of payload <> "" \/ files_of payload <> [] ->
  forallb skipped (files_of payload) = true ->
  let question := if String.eqb (question_of payload) ""
                  then default_question else question_of payload in
  let model_name := if String.eqb (model_choice_of payload) "t2"
                    then "gemini-3-flash-preview" else default_model in
  let parts := [from_text (head_of payload +:+ question +:+ tail_of payload)] in
  ask_question payload log = (StreamingResponse model_name parts [], log) /\
  calls_of (serve payload log).2
    = calls_of log ++ [generate_content_stream model_name parts].
Proof.
  intros Hb Hqf Hskip. cbv zeta.
  assert (E : ask_question payload log =
              (StreamingResponse
                 (if String.eqb (model_choice_of payload) "t2"
                  then "gemini-3-flash-preview" else default_model)
                 [from_text (head_of payload +:+
                             (if String.eqb (question_of payload) ""
                              then default_question else question_of payload) +:+
                             tail_of payload)] [], log)).
  { rewrite ask_question_response by assumption. cbv zeta.
    rewrite (attach_all_skipped _ _ _ Hskip). cbn [fst snd empty_acc contents
      uploaded_file_uris file_errors prompt_text app].
    now rewrite !append_nil_r. }
  split; [exact E |].
  unfold serve, bind. rewrite E, stream_eq. cbv zeta. unfold ret.
  cbn [snd delete_calls map]. rewrite app_nil_r.
  assert (Hcalls : forall a b, calls_of (a ++ b) = calls_of a ++ calls_of b).
  { intros a b. induction a as [|[c|fr] a IH]; cbn; [reflexivity | now rewrite IH | exact IH]. }
  assert (Hy : forall l, calls_of (map Yielded l) = []).
  { intros l. induction l as [|x l IH]; cbn; [reflexivity | exact IH]. }
  rewrite !Hcalls, Hy, app_nil_r. reflexivity.
Qed.

(** X10.  A board made of whitespace only is not replaced by the default:
    [or] keeps it (it is not empty), stripping empties it, and the request is
    answered with HTTP 400 "Invalid board" before anything else happens. *)
Theorem blank_board_rejected payload s log :
  p_board payload = Text s -> s <> "" -> all_space s = true ->
  serve payload log = (HTTPException 400 "Invalid board", log).
Proof.
  intros Hb Hs Hsp.
  assert (Hboard : board_of payload = "").
  { unfold board_of, strip. rewrite Hb. cbn [get or_else].
    apply String.eqb_neq in Hs. rewrite Hs.
    now rewrite (rstrip_all_space _ Hsp). }
  unfold serve, bind. rewrite ask_question_invalid_board; [reflexivity |].
  rewrite Hboard. decide_member.
Qed.

Lemma calls_of_app (a b : list event) :
  calls_of (a ++ b) = calls_of a ++ calls_of b.
Proof.
  induction a as [|[c|fr] a IH]; cbn; [reflexivity | now rewrite IH | exact IH].
Qed.

Lemma calls_of_yields (frames : list string) : calls_of (map Yielded frames) = [].
Proof. induction frames as [|x l IH]; cbn; [reflexivity | exact IH]. Qed.

Lemma calls_of_delete_calls (names : list string) :
  calls_of (delete_calls names) = map files_delete names.
Proof.
  induction names as [|x l IH]; [reflexivity |].
  cbn [delete_calls map calls_of]. f_equal. exact IH.
Qed.

(** X11.  A request that is answered with a stream makes exactly one
    generation call, with the model and the contents of the response; it
    comes after every call of the attachment loop and before the deletes,
    which are the last calls of the request. *)
Theorem one_generation_call payload log model_name parts uris :
  (ask_question payload log).1 = StreamingResponse model_name parts uris ->
  calls_of (serve payload log).2
    = calls_of (ask_question payload log).2 ++
      generate_content_stream model_name parts :: map files_delete uris.
Proof.
  intros E. unfold serve, bind.
  destruct (ask_question payload log) as [resp log1]. cbn [fst snd] in *. subst resp.
  rewrite stream_eq. cbv zeta. unfold ret. cbn [snd].
  rewrite !calls_of_app, calls_of_yields, calls_of_delete_calls.
  cbn [calls_of app]. now rewrite <- List.app_assoc.
Qed.

(** X12.  For a request that passes the two checks, the response names
    "gemini-3-flash-preview" exactly when the model tag lowercases to "t2"
    (the tag is not stripped); every other request gets the default model. *)
Theorem preview_model_selected payload log :
  board_of payload ∈ ALLOWED_BOARDS ->
  question_of payload <> "" \/ files_of payload <> [] ->
  exists model_name parts uris,
    (ask_question payload log).1 = StreamingResponse model_name parts uris /\
    (model_name = "gemini-3-flash-preview" <-> model_choice_of payload = "t2") /\
    (model_name = default_model <-> model_choice_of payload <> "t2").
Proof.
  intros Hb Hqf. rewrite ask_question_response by assumption. cbv zeta. cbn [fst].
  eexists _, _, _. split; [reflexivity |].
  destruct (String.eqb_spec (model_choice_of payload) "t2") as [E|E].
  - split; split; intros H; try assumption; try reflexivity;
      try discriminate H; now destruct H.
  - split; split; intros H; try assumption; try reflexivity;
      try discriminate H; now destruct E.
Qed.

Lemma attach_calls f log :
  exists evs,
    (attach f empty_acc log).2 = log ++ evs /\
    forallb is_file_call evs = true /\
    length (List.filter is_upload evs) <= (if says_pdf f then 1 else 0) /\
    (says_pdf f = false -> evs = []).
Proof.
  assert (Hnone : exists evs : list event,
            log = log ++ evs /\ forallb is_file_call evs = true /\
            length (List.filter is_upload evs) <= (if says_pdf f then 1 else 0) /\
            (says_pdf f = false -> evs = [])).
  { exists []. rewrite app_nil_r. repeat split. cbn. lia. }
  unfold attach.
  destruct (negb _ || negb _); [exact Hnone |].
  destruct (negb (bool_decide _)); [exact Hnone |].
  destruct (b64decode _) as [raw|e]; [| exact Hnone].
  destruct (String.eqb _ "application/pdf") eqn:Hpdf.
  - cbv zeta. unfold bind.
    destruct (upload_extends raw "application/pdf"
                (get_default (f_name f) "file") log) as (gets & E & G).
    assert (Hg : forallb is_file_call gets = true /\ List.filter is_upload gets = []).
    { clear E. induction G as [|ev gets [n ->] _ [IH1 IH2]]; [now split |].
      cbn. now rewrite IH1, IH2. }
    destruct Hg as [Hg1 Hg2].
    exists (Called (files_upload raw "application/pdf"
                      (get_default (f_name f) "file")) :: gets).
    unfold says_pdf. rewrite Hpdf. cbn [forallb is_file_call List.filter is_upload].
    rewrite Hg1, Hg2. cbn [length andb String.eqb].
    assert (Hlog : forall (A : Type) (x : A * list event) (y : A),
               x.2 = log ++ Called (files_upload raw "application/pdf"
                        (get_default (f_name f) "file")) :: gets ->
               (y, x.2).2 = log ++ Called (files_upload raw "application/pdf"
                        (get_default (f_name f) "file")) :: gets)
      by (intros; assumption).
    destruct (upload_file_to_gemini _ _ _ log) as [[[u n]|e] log'];
      cbn [fst snd] in *; subst log'.
    + destruct (Part_from_uri u "application/pdf");
        [unfold ret; cbn [snd]; repeat split; [lia | discriminate] |].
      destruct (Part_from_bytes _ _); unfold ret; cbn [snd];
        repeat split; (lia || discriminate).
    + destruct (Part_from_bytes _ _); unfold ret; cbn [snd];
        repeat split; (lia || discriminate).
  - assert (Hq : exists evs : list event,
              log = log ++ evs /\ forallb is_file_call evs = true /\
              length (List.filter is_upload evs) <= (if says_pdf f then 1 else 0) /\
              (says_pdf f = false -> evs = [])) by exact Hnone.
    destruct (String.eqb _ "text/plain"); [exact Hq |].
    destruct (Part_from_bytes _ _); exact Hq.
Qed.

Lemma attach_all_calls files log :
  exists evs,
    (attach_all files empty_acc log).2 = log ++ evs /\
    forallb is_file_call evs = true /\
    length (List.filter is_upload evs) <= length (List.filter says_pdf files) /\
    (List.filter says_pdf files = [] -> evs = []).
Proof.
  revert log. induction files as [|f files IH]; intros log.
  - exists []. cbn. rewrite app_nil_r. repeat split. lia.
  - cbn [attach_all]. unfold bind.
    destruct (attach_calls f log) as (evs1 & E1 & F1 & U1 & N1).
    destruct (attach f empty_acc log) as [d1 log1]. cbn [fst snd] in *.
    rewrite attach_all_merge.
    destruct (IH log1) as (evs2 & E2 & F2 & U2 & N2).
    destruct (attach_all files empty_acc log1) as [d2 log2]. cbn [fst snd] in *.
    exists (evs1 ++ evs2). subst log1 log2.
    rewrite forallb_app, F1, F2, List.filter_app, length_app, <- List.app_assoc.
    cbn [List.filter].
    split; [reflexivity |]. split; [reflexivity |]. split.
    + destruct (says_pdf f); cbn [length]; lia.
    + destruct (says_pdf f); [discriminate |].
      intros Hnone. now rewrite N1, N2.
Qed.

(** X13.  [ask_question] itself calls the service only to upload PDFs and
    poll them: its events are [client.files.upload] calls with the mime type
    application/pdf and [client.files.get] calls, with at most one upload per
    attachment that says it is a PDF.  It never generates, deletes or sends a
    frame; a request without a PDF attachment leaves the log untouched until
    the stream runs. *)
Theorem ask_question_only_uploads payload log :
  exists evs,
    (ask_question payload log).2 = log ++ evs /\
    forallb is_file_call evs = true /\
    length (List.filter is_upload evs)
      <= length (List.filter says_pdf (files_of payload)) /\
    (List.filter says_pdf (files_of payload) = [] -> evs = []).
Proof.
  destruct (ask_question_cases payload log) as [[detail E] | [Hb Hqf]].
  - rewrite E. exists []. cbn. rewrite app_nil_r. repeat split. lia.
  - rewrite ask_question_response by assumption. cbv zeta. cbn [snd].
    apply attach_all_calls.
Qed.

(** X14.  A PDF whose upload fails, also after [client.files.upload] itself
    succeeded (state FAILED, timeout, a poll that raises), is not recorded
    for the cleanup: in a request with that single attachment the upload call
    is made and no [client.files.delete] follows, so a file the service
    created for it is left on the service. *)
Theorem failed_upload_never_deleted payload f b64 raw e log :
  board_of payload ∈ ALLOWED_BOARDS ->
  files_of payload = [f] ->
  f_mimeType f = Text "application/pdf" ->
  f_base64 f = Text b64 -> b64 <> "" -> b64decode b64 = Ok raw ->
  let name := get_default (f_name f) "file" in
  (upload_file_to_gemini raw "application/pdf" name log).1 = Raise e ->
  response_uris (serve payload log).1 = [] /\
  exists rest,
    (serve payload log).2
      = log ++ Called (files_upload raw "application/pdf" name) :: rest /\
    deletes_of rest = [].
Proof.
  intros Hb Hfiles Hm Hp Hp0 Hdec name Hup.
  assert (Hqf : question_of payload <> "" \/ files_of payload <> [])
    by (right; now rewrite Hfiles).
  pose proof (ask_question_response payload log Hb Hqf) as E. cbv zeta in E.
  rewrite Hfiles in E. cbn [attach_all] in E. unfold bind, ret in E.
  rewrite (attach_pdf f empty_acc log b64 raw Hm Hp Hp0 Hdec) in E.
  cbv zeta in E. fold name in E. rewrite Hup in E. cbn [fst snd] in E.
  destruct (upload_extends raw "application/pdf" name log) as (gets & Eg & G).
  destruct (only_gets_quiet _ G) as [_ Gd].
  assert (Hu : uploaded_file_uris
                 (pdf_outcome name raw (Raise e) empty_acc) = []).
  { cbn [pdf_outcome]. unfold pdf_fallback.
    now destruct (from_bytes_error raw "application/pdf"). }
  unfold serve, bind. rewrite E, Hu, stream_eq. cbv zeta. unfold ret.
  cbn [fst snd response_uris delete_calls map]. split; [reflexivity |].
  rewrite Eg. eexists. rewrite <- !List.app_assoc. cbn [app].
  split; [reflexivity |].
  rewrite deletes_of_app, Gd. cbn [app deletes_of].
  rewrite deletes_of_app, deletes_of_yields. reflexivity.
Qed.

(** ** Beyond the claims: the relay *)

Lemma forwarded_nonempty rs : Forall (fun t => t <> "") (forwarded rs).
Proof.
  induction rs as [|[text|e] rs IH]; cbn [forwarded]; [constructor | | constructor].
  destruct (String.eqb_spec (or_else text "") ""); [exact IH |].
  now constructor.
Qed.

Lemma failure_all_chunks rs : all_chunks rs -> failure rs = None.
Proof. induction 1 as [|p rs [text ->] _ IH]; [reflexivity | exact IH]. Qed.

(** X15.  Every run of [stream] sends zero or more data frames, each for a
    non-empty text, and then exactly one terminal frame, which is the last
    frame sent: the end event, or an error event, the latter only when no
    data frame was sent. *)
Theorem one_terminal_frame model_name contents uris log :
  exists texts terminal,
    frames_of (stream model_name contents uris log).2
      = frames_of log ++ map data_frame texts ++ [terminal] /\
    Forall (fun t => t <> "") texts /\
    (terminal = end_frame \/ (texts = [] /\ exists e, terminal = error_frame e)).
Proof.
  rewrite stream_eq. cbv zeta. cbn [snd].
  rewrite !frames_of_app, frames_of_yields, frames_of_delete_calls.
  cbn [frames_of]. rewrite !app_nil_r.
  destruct (generate_answer client _) as [rs|e]; cbn [stream_frames].
  - exists (forwarded rs). eexists. split; [reflexivity |].
    split; [apply forwarded_nonempty |].
    destruct (failure rs) as [e|]; [| now left].
    destruct (forwarded rs); cbn [is_nil]; [right | left]; eauto.
  - exists [], (error_frame e). cbn [map app]. repeat split; [constructor |].
    right. eauto.
Qed.

(** X16.  When no pull raises, the stream completes: one data frame per
    chunk with a non-empty text, in order, then the end event; chunks whose
    text is [None] or empty send nothing. *)
Theorem complete_stream_ends model_name contents uris log response_stream :
  generate_answer client
    (log ++ [Called (generate_content_stream model_name contents)])
    = Ok response_stream ->
  all_chunks response_stream ->
  frames_of (stream model_name contents uris log).2
    = frames_of log ++ map data_frame (forwarded response_stream) ++ [end_frame] /\
  length (forwarded response_stream)
    = length (List.filter (fun p => negb (is_empty_chunk p)) response_stream).
Proof.
  intros Hans Hall. split.
  - rewrite stream_eq. cbv zeta. cbn [snd]. rewrite Hans. cbn [stream_frames].
    rewrite (failure_all_chunks _ Hall).
    rewrite !frames_of_app, frames_of_yields, frames_of_delete_calls.
    cbn [frames_of]. now rewrite !app_nil_r.
  - clear Hans. induction Hall as [|p rs [text ->] _ IH]; [reflexivity |].
    cbn [forwarded List.filter is_empty_chunk].
    destruct (String.eqb (or_else text "") ""); cbn [negb length]; now rewrite IH.
Qed.

(** X17.  The loop of [stream] stops at the first exception: what the stream
    would have given after it is never pulled, so it changes neither the
    frames nor the outcome. *)
Theorem relay_stops_at_first_exception pre e rest chunk_count log :
  all_chunks pre ->
  relay (pre ++ Raises e :: rest) chunk_count log
    = relay (pre ++ [Raises e]) chunk_count log.
Proof.
  intros Hpre. rewrite !relay_eq.
  now rewrite !(failure_app _ _ _ Hpre), !(forwarded_app _ _ _ Hpre).
Qed.

(** X18.  Chunks whose text is [None] or empty are invisible to the loop of
    [stream]: dropping them from the stream changes neither the frames nor
    the outcome, and in particular they do not count as forwarded. *)
Theorem relay_skips_empty_chunks response_stream chunk_count log :
  relay (List.filter (fun p => negb (is_empty_chunk p)) response_stream)
    chunk_count log
  = relay response_stream chunk_count log.
Proof.
  rewrite !relay_eq.
  assert (Hf : forall rs,
            failure (List.filter (fun p => negb (is_empty_chunk p)) rs) = failure rs).
  { intros rs. induction rs as [|[text|e'] rs IH]; [reflexivity | | reflexivity].
    cbn [List.filter is_empty_chunk].
    destruct (String.eqb (or_else text "") ""); cbn [negb failure]; exact IH. }
  assert (Hw : forall rs,
            forwarded (List.filter (fun p => negb (is_empty_chunk p)) rs)
            = forwarded rs).
  { intros rs. induction rs as [|[text|e'] rs IH]; [reflexivity | | reflexivity].
    cbn [List.filter is_empty_chunk forwarded].
    destruct (String.eqb (or_else text "") "") eqn:E; cbn [negb forwarded];
      [exact IH | now rewrite E, IH]. }
  now rewrite Hf, Hw.
Qed.

(** ** Beyond the claims: start-up and health *)

(** X19.  The module refuses to load exactly when GEMINI_API_KEY is unset or
    empty; once it has loaded, [/health] reports status "healthy" with
    [api_key_present] true and the timestamp it was given. *)
Theorem health_reports_key GEMINI_API_KEY :
  (env_check GEMINI_API_KEY = Raise "GEMINI_API_KEY environment variable not set"
   <-> GEMINI_API_KEY = None \/ GEMINI_API_KEY = Some "") /\
  (forall key timestamp,
      env_check GEMINI_API_KEY = Ok key ->
      GEMINI_API_KEY = Some key /\ key <> "" /\
      field "status" (health GEMINI_API_KEY timestamp) = Some (JString "healthy") /\
      field "api_key_present" (health GEMINI_API_KEY timestamp) = Some (JBool true) /\
      field "timestamp" (health GEMINI_API_KEY timestamp) = Some (JString timestamp)).
Proof.
  unfold env_check. destruct GEMINI_API_KEY as [k|]; cbn [truthy negb str].
  - destruct (String.eqb_spec k "") as [->|Hk]; cbn [negb]; split.
    + split; auto.
    + discriminate.
    + split; [discriminate |]. intros [H|H]; [discriminate | now injection H].
    + intros key ts H. injection H as <-.
      unfold health. cbn [truthy field String.eqb].
      apply String.eqb_neq in Hk as Hk'. rewrite Hk'. cbn.
      now repeat split.
  - split; [split; auto | discriminate].
Qed.

(** ** Beyond the claims: the prompt and the checks *)

Lemma attach_prompt_text f log :
  prompt_text (attach f empty_acc log).1
    = (if negb (skipped f) &&
          String.eqb (str (get_default (f_mimeType f) "")) "text/plain"
       then match b64decode (str (get_default (f_base64 f) "")) with
            | Ok raw =>
                text_block (get_default (f_name f) "file") (decode_utf8_replace raw)
            | Raise _ => ""
            end
       else "").
Proof.
  unfold attach, skipped.
  destruct (negb _ || negb _); [reflexivity |]. cbn [negb andb].
  destruct (bool_decide _) eqn:Hin; cbn [negb].
  - destruct (b64decode _) as [raw|e];
      [| now destruct (String.eqb _ "text/plain")].
    destruct (String.eqb_spec (str (get_default (f_mimeType f) ""))
                "application/pdf") as [E|E].
    + rewrite E. cbn [String.eqb]. cbv zeta. unfold bind.
      change (String.eqb "application/pdf" "text/plain") with false.
      unfold Part_from_uri, Part_from_bytes.
      destruct (upload_file_to_gemini _ _ _ log) as [[[u n]|e] log'].
      * destruct (from_uri_error u "application/pdf"); [| reflexivity].
        now destruct (from_bytes_error _ _).
      * now destruct (from_bytes_error _ _).
    + destruct (String.eqb _ "text/plain"); [reflexivity |].
      unfold Part_from_bytes. now destruct (from_bytes_error _ _).
  - destruct (String.eqb_spec (str (get_default (f_mimeType f) "")) "text/plain")
      as [E|E]; [| reflexivity].
    exfalso. apply bool_decide_eq_false_1 in Hin. apply Hin. rewrite E. decide_member.
Qed.

Lemma attach_all_prompt_text files log :
  prompt_text (attach_all files empty_acc log).1
    = text_blocks b64decode decode_utf8_replace files.
Proof.
  revert log. induction files as [|f files IH]; intros log; [reflexivity |].
  cbn [attach_all text_blocks]. unfold bind.
  pose proof (attach_prompt_text f log) as Hf.
  destruct (attach f empty_acc log) as [d1 log1]. cbn [fst] in Hf.
  rewrite attach_all_merge. cbn [fst merge prompt_text].
  now rewrite Hf, IH.
Qed.


(** X21.  The board is read without regard to case and to surrounding
    whitespace: when the normalised board is an allowed one, the request is
    handled exactly like the same request with the board written in that
    normal form. *)
Theorem board_normal_form payload log :
  board_of payload ∈ ALLOWED_BOARDS ->
  ask_question payload log
    = ask_question (with_board (Text (board_of payload)) payload) log.
Proof.
  intros Hb.
  assert (Hfix : upper (strip (or_else (Some (board_of payload)) "ICSE"))
                 = board_of payload).
  { revert Hb. generalize (board_of payload). intros b Hb.
    unfold ALLOWED_BOARDS in Hb.
    apply elem_of_union in Hb as [Hb|Hb];
      [apply elem_of_union in Hb as [Hb|Hb] |];
      apply elem_of_singleton in Hb; subst b; reflexivity. }
  unfold ask_question.
  cbn [with_board p_board p_class_level p_subject p_chapter p_question
       p_model p_files get].
  fold (board_of payload). now rewrite Hfix.
Qed.

(** X22.  [ask_question] raises no HTTP error other than 400, with the
    detail "Invalid board" or "Question or file required", and a request it
    rejects leaves no trace: no call on the service, no frame. *)
Theorem rejections_are_400 payload log status detail :
  (ask_question payload log).1 = HTTPException status detail ->
  status = 400 /\
  (detail = "Invalid board" \/ detail = "Question or file required") /\
  serve payload log = (HTTPException status detail, log).
Proof.
  intros E.
  destruct (decide (board_of payload ∈ ALLOWED_BOARDS)) as [Hb|Hb].
  - destruct (String.eqb_spec (question_of payload) "") as [Hq|Hq].
    + destruct (files_of payload) as [|f fs] eqn:Hf.
      * unfold serve, bind.
        rewrite ask_question_missing_input in E |- * by assumption.
        cbn [fst] in E. injection E as <- <-. auto.
      * rewrite ask_question_response in E; [discriminate | assumption |].
        right. now rewrite Hf.
    + rewrite ask_question_response in E; [discriminate | assumption | now left].
  - unfold serve, bind. rewrite ask_question_invalid_board in E |- * by assumption.
    cbn [fst] in E. injection E as <- <-. auto.
Qed.

End Facts.

(** ** Beyond the claims: the outcome of the deletes *)

Section Cleanup.

Context (client : Client) (answer : list event -> result unit)
  (json_dumps : string -> string)
  (b64decode : string -> result (list byte))
  (decode_utf8_replace : list byte -> string)
  (from_bytes_error : list byte -> string -> option string)
  (from_uri_error : string -> string -> option string).

Lemma poll_with_delete_answer attempts name uploaded log :
  poll (with_delete_answer answer client) attempts name uploaded log
    = poll client attempts name uploaded log.
Proof.
  revert uploaded log. induction attempts as [|n IH]; intros u log; [reflexivity |].
  cbn [poll].
  destruct (String.eqb (file_state_name u) "ACTIVE"); [reflexivity |].
  destruct (String.eqb (file_state_name u) "FAILED"); [reflexivity |].
  unfold bind, invoke. cbn [with_delete_answer get_answer].
  destruct (get_answer client _); [apply IH | reflexivity].
Qed.

Lemma upload_with_delete_answer raw mime_type name log :
  upload_file_to_gemini (with_delete_answer answer client) raw mime_type name log
    = upload_file_to_gemini client raw mime_type name log.
Proof.
  unfold upload_file_to_gemini, bind, invoke.
  cbn [with_delete_answer upload_answer].
  destruct (upload_answer client _); [| reflexivity].
  now rewrite poll_with_delete_answer.
Qed.

Lemma attach_all_with_delete_answer files st log :
  attach_all (with_delete_answer answer client) b64decode decode_utf8_replace
    from_bytes_error from_uri_error files st log
  = attach_all client b64decode decode_utf8_replace from_bytes_error from_uri_error files st log.
Proof.
  revert st log. induction files as [|f files IH]; intros st log; [reflexivity |].
  cbn [attach_all]. unfold bind.
  assert (E : attach (with_delete_answer answer client) b64decode
                decode_utf8_replace from_bytes_error from_uri_error f st log
              = attach client b64decode decode_utf8_replace from_bytes_error from_uri_error f st log).
  { unfold attach.
    destruct (negb _ || negb _); [reflexivity |].
    destruct (negb (bool_decide _)); [reflexivity |].
    destruct (b64decode _); [| reflexivity].
    destruct (String.eqb _ "application/pdf"); [| reflexivity].
    cbv zeta. unfold bind. now rewrite upload_with_delete_answer. }
  rewrite E. destruct (attach client _ _ _ _ f st log) as [st1 log1]. apply IH.
Qed.

(** X23.  What the deletes of the cleanup answer never matters: a service
    that differs only in how it answers [client.files.delete] (raising or
    not) gives the same response, the same frames and the same calls. *)
Theorem cleanup_outcome_ignored payload log :
  serve (with_delete_answer answer client) json_dumps b64decode
    decode_utf8_replace from_bytes_error from_uri_error payload log
  = serve client json_dumps b64decode decode_utf8_replace from_bytes_error from_uri_error
      payload log.
Proof.
  unfold serve, bind.
  assert (E : ask_question (with_delete_answer answer client) b64decode
                decode_utf8_replace from_bytes_error from_uri_error payload log
              = ask_question client b64decode decode_utf8_replace
                  from_bytes_error from_uri_error payload log).
  { unfold ask_question.
    destruct (negb (bool_decide _)); [reflexivity |].
    destruct (_ && is_nil _); [reflexivity |].
    unfold bind. now rewrite attach_all_with_delete_answer. }
  rewrite E.
  destruct (ask_question client _ _ _ _ payload log) as [[status detail|m c u] log1];
    [reflexivity |].
  now rewrite !stream_eq.
Qed.

End Cleanup.

(** ** Runs of the model *)

Example b64decode_hello :
  Sample.b64decode "SGVsbG8=" = Ok (list_byte_of_string "Hello").
Proof. reflexivity. Qed.

Example board_normalised :
  board_of (Sample.payload (Text "  cbse ") Absent []) = "CBSE".
Proof. reflexivity. Qed.

(** A PDF that uploads at once, a stream that breaks after one fragment: the
    upload, the generation call, the data frame, the end event, the delete. *)
Example request_events :
  let c := Sample.client "ACTIVE" (Ok Sample.broken_stream) in
  let payload :=
    Sample.payload (Text "icse") (Text "Solve question 3")
      [Sample.attachment "paper.pdf" "application/pdf" "JVBERi0xLjQ="] in
  exists prompt_sent,
    Sample.serve c payload [] =
      (StreamingResponse default_model
         [from_uri "https://files.example/f1" "application/pdf";
          from_text prompt_sent]
         ["files/f1"],
       [Called (files_upload (list_byte_of_string "%PDF-1.4")
                  "application/pdf" (Some "paper.pdf"));
        Called (generate_content_stream default_model
                  [from_uri "https://files.example/f1" "application/pdf";
                   from_text prompt_sent]);
        Yielded (data_frame Sample.json_dumps "x = 4");
        Yielded end_frame;
        Called (files_delete "files/f1")]).
Proof. cbv zeta. eexists. vm_compute. reflexivity. Qed.

(** A generation call that raises before anything is sent. *)
Example api_key_error_frame :
  frames_of
    (Sample.stream (Sample.client "ACTIVE" (Raise "400 API key not valid"))
       default_model [] [] []).2
  = ["event: error" +:+ nl +:+
     "data: API configuration error. Please contact support." +:+ nl +:+ nl].
Proof. reflexivity. Qed.

(** ** The properties on concrete requests *)

Lemma invalid_board_rejected_witness :
  (board_of (Sample.payload (Text " igcse ") (Text "What is an acid?") [])
     ∉ ALLOWED_BOARDS) /\
  (Sample.serve (Sample.client "ACTIVE" (Ok []))
     (Sample.payload (Text " igcse ") (Text "What is an acid?") []) []
   = (HTTPException 400 "Invalid board", [])).
Proof.
  assert (H : board_of (Sample.payload (Text " igcse ") (Text "What is an acid?") [])
              ∉ ALLOWED_BOARDS) by decide_member.
  split; [exact H |].
  exact (invalid_board_rejected _ _ _ _ _ _ _ _ H).
Defined.

Lemma stream_failure_outcome_witness :
  frames_of
    (Sample.stream (Sample.client "ACTIVE" (Ok Sample.broken_stream))
       default_model [] ["files/f1"] []).2
  = [data_frame Sample.json_dumps "x = 4"; end_frame].
Proof.
  assert (Hpre : all_chunks [Chunk (Some "x = 4"); Chunk None])
    by (repeat constructor; eexists; reflexivity).
  destruct (proj1 (stream_failure_outcome
                     (Sample.client "ACTIVE" (Ok Sample.broken_stream))
                     Sample.json_dumps)
              default_model [] ["files/f1"] []
              [Chunk (Some "x = 4"); Chunk None] "connection reset"
              [Chunk (Some "lost")] eq_refl Hpre) as [Hsome _].
  destruct Hsome as [H _]; [discriminate | exact H].
Defined.

Lemma failed_stream_single_error_witness :
  frames_of
    (Sample.stream (Sample.client "ACTIVE" (Raise "429 Quota exceeded for model"))
       default_model [] [] []).2
  = [error_frame "429 Quota exceeded for model"].
Proof.
  exact (proj1 (failed_stream_single_error
                  (Sample.client "ACTIVE" (Raise "429 Quota exceeded for model"))
                  Sample.json_dumps default_model [] [] []
                  "429 Quota exceeded for model" (or_introl eq_refl))).
Defined.



Lemma missing_input_rule_witness :
  (exists detail,
      Sample.serve (Sample.client "ACTIVE" (Ok []))
        (Sample.payload (Text "CBSE") (Text "   ") []) []
      = (HTTPException 400 detail, [])) /\
  (exists model_name parts rest uris,
      (Sample.ask_question (Sample.client "ACTIVE" (Ok []))
         (Sample.payload (Text "CBSE") Null
            [Sample.attachment "notes.txt" "text/plain" "SGVsbG8="]) []).1
      = StreamingResponse model_name
          (parts ++
           [from_text
              (head_of (Sample.payload (Text "CBSE") Null
                          [Sample.attachment "notes.txt" "text/plain" "SGVsbG8="])
               +:+ default_question +:+ rest)])
          uris).
Proof.
  split.
  - apply (missing_input_rule (Sample.client "ACTIVE" (Ok [])) Sample.json_dumps
             Sample.b64decode Sample.decode_utf8_replace Sample.from_bytes_error Sample.from_uri_error
             (Sample.payload (Text "CBSE") (Text "   ") []) []);
      reflexivity.
  - apply (missing_input_rule (Sample.client "ACTIVE" (Ok [])) Sample.json_dumps
             Sample.b64decode Sample.decode_utf8_replace Sample.from_bytes_error Sample.from_uri_error
             (Sample.payload (Text "CBSE") Null
                [Sample.attachment "notes.txt" "text/plain" "SGVsbG8="]) []);
      [exact I | discriminate | decide_member].
Defined.

Lemma defaults_applied_witness :
  (board_of (Sample.payload Null (Text "Define osmosis") []) = "ICSE" /\
   board_of (Sample.payload Null (Text "Define osmosis") []) ∈ ALLOWED_BOARDS /\
   forall status,
     (Sample.ask_question (Sample.client "ACTIVE" (Ok []))
        (Sample.payload Null (Text "Define osmosis") []) []).1
     <> HTTPException status "Invalid board") /\
  (exists parts uris,
      (Sample.ask_question (Sample.client "ACTIVE" (Ok []))
         (Sample.payload Null (Text "Define osmosis") []) []).1
      = StreamingResponse default_model parts uris).
Proof.
  pose proof (defaults_applied (Sample.client "ACTIVE" (Ok []))
                Sample.b64decode Sample.decode_utf8_replace Sample.from_bytes_error Sample.from_uri_error
                (Sample.payload Null (Text "Define osmosis") []) [])
    as (Hboard & _ & Hmodel).
  split.
  - apply Hboard. right. left. reflexivity.
  - apply Hmodel; [discriminate | decide_member | left; discriminate].
Defined.

Lemma unsupported_attachment_noted_witness :
  exists model_name parts before errors uris,
    (Sample.ask_question (Sample.client "ACTIVE" (Ok []))
       (Sample.payload (Text "SSLC") (Text "Summarise the files")
          [Sample.attachment "page.png" "image/png" "iVBORw0KGgo=";
           Sample.attachment "clip.mp4" "video/mp4" "AAAAIGZ0eXA=";
           Sample.attachment "notes.txt" "text/plain" "SGVsbG8="]) []).1
    = StreamingResponse model_name
        (parts ++ [from_text (before +:+ errors_note errors)]) uris /\
    In "File 'clip.mp4' (video/mp4) is unsupported" errors /\
    contains "File 'clip.mp4' (video/mp4) is unsupported"
      (before +:+ errors_note errors) = true.
Proof.
  apply (unsupported_attachment_noted (Sample.client "ACTIVE" (Ok []))
           Sample.b64decode Sample.decode_utf8_replace Sample.from_bytes_error Sample.from_uri_error
           (Sample.payload (Text "SSLC") (Text "Summarise the files")
              [Sample.attachment "page.png" "image/png" "iVBORw0KGgo=";
               Sample.attachment "clip.mp4" "video/mp4" "AAAAIGZ0eXA=";
               Sample.attachment "notes.txt" "text/plain" "SGVsbG8="])
           [Sample.attachment "page.png" "image/png" "iVBORw0KGgo="]
           (Sample.attachment "clip.mp4" "video/mp4" "AAAAIGZ0eXA=")
           [Sample.attachment "notes.txt" "text/plain" "SGVsbG8="]
           "video/mp4" "AAAAIGZ0eXA=" []);
    [decide_member | reflexivity | reflexivity | discriminate | decide_member
    | reflexivity | discriminate].
Defined.

(** C5 as stated fails: an attachment with an unsupported mime type and an
    empty payload is skipped by the guard on [b64] before the mime type is
    looked at.  No error is recorded and the prompt sent names neither the
    file nor anything unsupported. *)
Lemma unsupported_without_payload_unnoted :
  let c := Sample.client "ACTIVE" (Ok []) in
  let f := Sample.attachment "clip.mp4" "video/mp4" "" in
  f_mimeType f = Text "video/mp4" /\
  ("video/mp4" ∉ SUPPORTED_MIME_TYPES) /\
  Sample.attach c f empty_acc [] = (empty_acc, []) /\
  exists model_name prompt_sent,
    Sample.ask_question c
      (Sample.payload (Text "CBSE") (Text "What does the clip show?") [f]) []
    = (StreamingResponse model_name [from_text prompt_sent] [], []) /\
    contains "clip.mp4" prompt_sent = false /\
    contains "unsupported" prompt_sent = false.
Proof.
  cbv zeta. split; [reflexivity |]. split; [decide_member |].
  split; [reflexivity |].
  eexists _, _. split; [reflexivity |]. split; vm_compute; reflexivity.
Qed.

Lemma text_attachment_spliced_witness :
  exists model_name prompt_sent,
    Sample.ask_question (Sample.client "ACTIVE" (Ok []))
      (Sample.payload (Text "icse") (Text "Explain my notes")
         [Sample.attachment "notes.txt" "text/plain" "T2htJ3MgbGF3OiBWID0gSVI="]) []
    = (StreamingResponse model_name [from_text prompt_sent] [], []) /\
    contains
      (nl +:+ nl +:+ "--- Content of notes.txt ---" +:+ nl +:+
       "Ohm's law: V = IR" +:+ nl +:+ "--- End of notes.txt ---")
      prompt_sent = true.
Proof.
  apply (text_attachment_spliced (Sample.client "ACTIVE" (Ok []))
           Sample.b64decode Sample.decode_utf8_replace Sample.from_bytes_error Sample.from_uri_error
           (Sample.payload (Text "icse") (Text "Explain my notes")
              [Sample.attachment "notes.txt" "text/plain" "T2htJ3MgbGF3OiBWID0gSVI="])
           [] (Sample.attachment "notes.txt" "text/plain" "T2htJ3MgbGF3OiBWID0gSVI=") []
           "T2htJ3MgbGF3OiBWID0gSVI=" (list_byte_of_string "Ohm's law: V = IR") []);
    [decide_member | reflexivity | reflexivity | reflexivity | discriminate
    | reflexivity].
Defined.

(** C6 as stated fails: the empty payload decodes (to no bytes), yet a
    text/plain attachment carrying it is skipped by the guard on [b64], and
    the prompt sent has no block for it. *)
Lemma empty_text_attachment_skipped :
  let c := Sample.client "ACTIVE" (Ok []) in
  let f := Sample.attachment "empty.txt" "text/plain" "" in
  Sample.b64decode "" = Ok [] /\
  Sample.attach c f empty_acc [] = (empty_acc, []) /\
  exists model_name prompt_sent,
    Sample.ask_question c
      (Sample.payload (Text "CBSE") (Text "Read my file") [f]) []
    = (StreamingResponse model_name [from_text prompt_sent] [], []) /\
    contains "--- Content of empty.txt ---" prompt_sent = false /\
    contains "--- End of empty.txt ---" prompt_sent = false.
Proof.
  cbv zeta. split; [reflexivity |]. split; [reflexivity |].
  eexists _, _. split; [reflexivity |]. split; vm_compute; reflexivity.
Qed.

Lemma failed_upload_falls_back_witness :
  let c := Sample.client "FAILED" (Ok []) in
  let f := Sample.attachment "paper.pdf" "application/pdf" "JVBERi0xLjQ=" in
  let raw := list_byte_of_string "%PDF-1.4" in
  let e := "Failed to upload paper.pdf: File processing failed: paper.pdf" in
  upload_file_to_gemini c raw "application/pdf" (Some "paper.pdf") []
    = (Raise e, [Called (files_upload raw "application/pdf" (Some "paper.pdf"))]) /\
  Sample.attach c f empty_acc []
    = (add_part (from_bytes raw "application/pdf") empty_acc,
       [Called (files_upload raw "application/pdf" (Some "paper.pdf"))]).
Proof.
  cbv zeta.
  destruct (failed_upload_falls_back (Sample.client "FAILED" (Ok []))
              Sample.b64decode Sample.decode_utf8_replace Sample.from_bytes_error Sample.from_uri_error
              (Sample.attachment "paper.pdf" "application/pdf" "JVBERi0xLjQ=")
              empty_acc [] "JVBERi0xLjQ=" (list_byte_of_string "%PDF-1.4")
              (Sample.file "FAILED") 0 (Sample.file "FAILED")
              [Called (files_upload (list_byte_of_string "%PDF-1.4")
                         "application/pdf" (Some "paper.pdf"))]
              eq_refl eq_refl ltac:(discriminate) eq_refl eq_refl eq_refl
              ltac:(unfold max_attempts; lia) eq_refl)
    as (Hup & Hattach & _).
  split; [exact Hup | exact Hattach].
Defined.

Lemma timed_out_upload_falls_back_witness :
  let c := Sample.client "PROCESSING" (Ok []) in
  let f := Sample.attachment "paper.pdf" "application/pdf" "JVBERi0xLjQ=" in
  let raw := list_byte_of_string "%PDF-1.4" in
  let e := "Failed to upload paper.pdf: File processing timeout for: paper.pdf" in
  exists log',
    upload_file_to_gemini c raw "application/pdf" (Some "paper.pdf") []
      = (Raise e, log') /\
    Sample.attach c f empty_acc []
      = (add_part (from_bytes raw "application/pdf") empty_acc, log').
Proof.
  cbv zeta. eexists.
  apply (timed_out_upload_falls_back (Sample.client "PROCESSING" (Ok []))
           Sample.b64decode Sample.decode_utf8_replace Sample.from_bytes_error Sample.from_uri_error
           (Sample.attachment "paper.pdf" "application/pdf" "JVBERi0xLjQ=")
           empty_acc [] "JVBERi0xLjQ=" (list_byte_of_string "%PDF-1.4")
           (Sample.file "PROCESSING") (Sample.file "PROCESSING"));
    [reflexivity | reflexivity | discriminate | reflexivity | reflexivity
    | reflexivity].
Defined.

(** C8 as stated fails: with a service that keeps answering PROCESSING, the
    upload makes its 30 polls, raises the timeout, and the PDF is inlined as
    a [from_bytes] part all the same. *)
Lemma timed_out_upload_is_inlined :
  let c := Sample.client "PROCESSING" (Ok []) in
  let f := Sample.attachment "paper.pdf" "application/pdf" "JVBERi0xLjQ=" in
  let raw := list_byte_of_string "%PDF-1.4" in
  (upload_file_to_gemini c raw "application/pdf" (Some "paper.pdf") []).1
    = Raise "Failed to upload paper.pdf: File processing timeout for: paper.pdf" /\
  calls_of (upload_file_to_gemini c raw "application/pdf" (Some "paper.pdf") []).2
    = files_upload raw "application/pdf" (Some "paper.pdf")
      :: repeat (files_get "files/f1") 30 /\
  contents (Sample.attach c f empty_acc []).1 = [from_bytes raw "application/pdf"] /\
  file_errors (Sample.attach c f empty_acc []).1 = [].
Proof. cbv zeta. repeat split; vm_compute; reflexivity. Qed.

(** ** The further properties on concrete requests *)

Lemma upload_returns_active_file_witness :
  let raw := list_byte_of_string "%PDF-1.4" in
  upload_file_to_gemini (Sample.slow_client 2 (Ok [])) raw "application/pdf"
    (Some "paper.pdf") []
  = (Ok ("https://files.example/f1", "files/f1"),
     [Called (files_upload raw "application/pdf" (Some "paper.pdf"));
      Called (files_get "files/f1"); Called (files_get "files/f1")]).
Proof.
  cbv zeta.
  apply (upload_returns_active_file (Sample.slow_client 2 (Ok []))
           (list_byte_of_string "%PDF-1.4") "application/pdf" (Some "paper.pdf") []
           (Sample.file "PROCESSING") 2 (Sample.file "ACTIVE"));
    [reflexivity | reflexivity | unfold max_attempts; lia | reflexivity].
Defined.

Lemma upload_failure_message_witness :
  exists reason,
    "Failed to upload paper.pdf: 503 Service Unavailable"
      = "Failed to upload " +:+ str (Some "paper.pdf") +:+ ": " +:+ reason /\
    (reason = "File processing failed: " +:+ str (Some "paper.pdf") \/
     reason = "File processing timeout for: " +:+ str (Some "paper.pdf") \/
     (exists log1, upload_answer Sample.flaky_client log1 = Raise reason) \/
     (exists log1, get_answer Sample.flaky_client log1 = Raise reason)).
Proof.
  apply (upload_failure_message Sample.flaky_client
           (list_byte_of_string "%PDF-1.4") "application/pdf" (Some "paper.pdf") []
           "Failed to upload paper.pdf: 503 Service Unavailable"
           [Called (files_upload (list_byte_of_string "%PDF-1.4")
                      "application/pdf" (Some "paper.pdf"));
            Called (files_get "files/f1")]).
  reflexivity.
Defined.

Lemma uploaded_pdf_referenced_witness :
  let raw := list_byte_of_string "%PDF-1.4" in
  Sample.attach (Sample.slow_client 2 (Ok []))
    (Sample.attachment "paper.pdf" "application/pdf" "JVBERi0xLjQ=") empty_acc []
  = ({| contents := [from_uri "https://files.example/f1" "application/pdf"];
        uploaded_file_uris := ["files/f1"];
        file_errors := [];
        prompt_text := "" |},
     [Called (files_upload raw "application/pdf" (Some "paper.pdf"));
      Called (files_get "files/f1"); Called (files_get "files/f1")]).
Proof.
  cbv zeta.
  apply (uploaded_pdf_referenced (Sample.slow_client 2 (Ok []))
           Sample.b64decode Sample.decode_utf8_replace Sample.from_bytes_error Sample.from_uri_error
           (Sample.attachment "paper.pdf" "application/pdf" "JVBERi0xLjQ=")
           empty_acc [] "JVBERi0xLjQ=" (list_byte_of_string "%PDF-1.4")
           (Sample.file "PROCESSING") 2 (Sample.file "ACTIVE"));
    [reflexivity | reflexivity | discriminate | reflexivity | reflexivity
    | reflexivity | unfold max_attempts; lia | reflexivity].
Defined.

Lemma image_inlined_witness :
  Sample.attach (Sample.client "ACTIVE" (Ok []))
    (Sample.attachment "figure.gif" "image/gif" "R0lGODlh") empty_acc []
  = (add_part (from_bytes (list_byte_of_string "GIF89a") "image/gif") empty_acc, []).
Proof.
  apply (image_inlined (Sample.client "ACTIVE" (Ok []))
           Sample.b64decode Sample.decode_utf8_replace Sample.from_bytes_error Sample.from_uri_error
           (Sample.attachment "figure.gif" "image/gif" "R0lGODlh")
           empty_acc [] "image/gif" "R0lGODlh" (list_byte_of_string "GIF89a"));
    [reflexivity | reflexivity | reflexivity | discriminate | reflexivity].
Defined.

Lemma undecodable_attachment_noted_witness :
  Sample.attach (Sample.client "ACTIVE" (Ok []))
    (Sample.attachment "scan.pdf" "application/pdf" "JVBERi0") empty_acc []
  = ({| contents := [];
        uploaded_file_uris := [];
        file_errors := ["Could not decode 'scan.pdf': Incorrect padding"];
        prompt_text := "" |}, []).
Proof.
  apply (undecodable_attachment_noted (Sample.client "ACTIVE" (Ok []))
           Sample.b64decode Sample.decode_utf8_replace Sample.from_bytes_error Sample.from_uri_error
           (Sample.attachment "scan.pdf" "application/pdf" "JVBERi0")
           empty_acc [] "application/pdf" "JVBERi0" "Incorrect padding");
    [reflexivity | decide_member | reflexivity | discriminate | reflexivity].
Defined.

Lemma prompt_is_last_part_witness :
  exists parts prompt_sent,
    response_contents
      (Sample.ask_question (Sample.client "ACTIVE" (Ok []))
         (Sample.payload (Text "CBSE") (Text "Describe the figure")
            [Sample.attachment "figure.gif" "image/gif" "R0lGODlh";
             Sample.attachment "paper.pdf" "application/pdf" "JVBERi0xLjQ="]) []).1
      = parts ++ [from_text prompt_sent] /\
    Forall (fun p => is_text_part p = false) parts /\
    Forall (fun p => is_attachment_part p = true) parts /\
    length parts <= 2.
Proof.
  apply (prompt_is_last_part (Sample.client "ACTIVE" (Ok []))
           Sample.b64decode Sample.decode_utf8_replace Sample.from_bytes_error Sample.from_uri_error
           (Sample.payload (Text "CBSE") (Text "Describe the figure")
              [Sample.attachment "figure.gif" "image/gif" "R0lGODlh";
               Sample.attachment "paper.pdf" "application/pdf" "JVBERi0xLjQ="]) []);
    [decide_member | left; discriminate].
Defined.

Lemma nothing_attached_witness :
  let payload :=
    Sample.payload (Text "CBSE") Null [Sample.attachment "empty.txt" "text/plain" ""] in
  let parts := [from_text (head_of payload +:+ default_question +:+ tail_of payload)] in
  Sample.ask_question (Sample.client "ACTIVE" (Ok [])) payload []
    = (StreamingResponse default_model parts [], []) /\
  calls_of (Sample.serve (Sample.client "ACTIVE" (Ok [])) payload []).2
    = [generate_content_stream default_model parts].
Proof.
  cbv zeta.
  apply (nothing_attached (Sample.client "ACTIVE" (Ok [])) Sample.json_dumps
           Sample.b64decode Sample.decode_utf8_replace Sample.from_bytes_error Sample.from_uri_error
           (Sample.payload (Text "CBSE") Null
              [Sample.attachment "empty.txt" "text/plain" ""]) []);
    [decide_member | right; discriminate | reflexivity].
Defined.

Lemma blank_board_rejected_witness :
  Sample.serve (Sample.client "ACTIVE" (Ok []))
    (Sample.payload (Text "   ") (Text "Define osmosis") []) []
  = (HTTPException 400 "Invalid board", []).
Proof.
  apply (blank_board_rejected (Sample.client "ACTIVE" (Ok [])) Sample.json_dumps
           Sample.b64decode Sample.decode_utf8_replace Sample.from_bytes_error Sample.from_uri_error
           (Sample.payload (Text "   ") (Text "Define osmosis") []) "   " []);
    [reflexivity | discriminate | reflexivity].
Defined.

Lemma one_generation_call_witness :
  let c := Sample.client "ACTIVE" (Ok Sample.broken_stream) in
  let payload :=
    Sample.payload (Text "icse") (Text "Solve question 3")
      [Sample.attachment "paper.pdf" "application/pdf" "JVBERi0xLjQ="] in
  exists model_name parts,
    (Sample.ask_question c payload []).1
      = StreamingResponse model_name parts ["files/f1"] /\
    calls_of (Sample.serve c payload []).2
      = calls_of (Sample.ask_question c payload []).2 ++
        [generate_content_stream model_name parts; files_delete "files/f1"].
Proof.
  cbv zeta. eexists _, _.
  assert (E : (Sample.ask_question (Sample.client "ACTIVE" (Ok Sample.broken_stream))
                 (Sample.payload (Text "icse") (Text "Solve question 3")
                    [Sample.attachment "paper.pdf" "application/pdf" "JVBERi0xLjQ="])
                 []).1
              = StreamingResponse _ _ ["files/f1"]) by reflexivity.
  split; [exact E |].
  exact (one_generation_call (Sample.client "ACTIVE" (Ok Sample.broken_stream))
           Sample.json_dumps Sample.b64decode Sample.decode_utf8_replace
           Sample.from_bytes_error Sample.from_uri_error _ [] _ _ _ E).
Defined.

Lemma preview_model_selected_witness :
  exists parts uris,
    (Sample.ask_question (Sample.client "ACTIVE" (Ok []))
       (with_model (Text "T2") (Sample.payload Absent (Text "Define osmosis") []))
       []).1
    = StreamingResponse "gemini-3-flash-preview" parts uris.
Proof.
  destruct (preview_model_selected (Sample.client "ACTIVE" (Ok []))
              Sample.b64decode Sample.decode_utf8_replace Sample.from_bytes_error Sample.from_uri_error
              (with_model (Text "T2")
                 (Sample.payload Absent (Text "Define osmosis") [])) [])
    as (m & parts & uris & E & [_ Hm] & _);
    [decide_member | left; discriminate |].
  exists parts, uris. rewrite <- (Hm eq_refl). exact E.
Defined.

Lemma failed_upload_never_deleted_witness :
  let c := Sample.client "FAILED" (Ok [Chunk (Some "Done")]) in
  let payload :=
    Sample.payload (Text "CBSE") (Text "Solve it")
      [Sample.attachment "paper.pdf" "application/pdf" "JVBERi0xLjQ="] in
  response_uris (Sample.serve c payload []).1 = [] /\
  exists rest,
    (Sample.serve c payload []).2
      = Called (files_upload (list_byte_of_string "%PDF-1.4") "application/pdf"
                  (Some "paper.pdf")) :: rest /\
    deletes_of rest = [].
Proof.
  cbv zeta.
  apply (failed_upload_never_deleted
           (Sample.client "FAILED" (Ok [Chunk (Some "Done")])) Sample.json_dumps
           Sample.b64decode Sample.decode_utf8_replace Sample.from_bytes_error Sample.from_uri_error
           (Sample.payload (Text "CBSE") (Text "Solve it")
              [Sample.attachment "paper.pdf" "application/pdf" "JVBERi0xLjQ="])
           (Sample.attachment "paper.pdf" "application/pdf" "JVBERi0xLjQ=")
           "JVBERi0xLjQ=" (list_byte_of_string "%PDF-1.4")
           "Failed to upload paper.pdf: File processing failed: paper.pdf" []);
    [decide_member | reflexivity | reflexivity | reflexivity | discriminate
    | reflexivity | reflexivity].
Defined.

Lemma complete_stream_ends_witness :
  let rs := [Chunk (Some "x = "); Chunk (Some ""); Chunk None; Chunk (Some "4")] in
  frames_of (Sample.stream (Sample.client "ACTIVE" (Ok rs)) default_model [] [] []).2
    = [data_frame Sample.json_dumps "x = "; data_frame Sample.json_dumps "4";
       end_frame] /\
  length (forwarded rs) = 2.
Proof.
  cbv zeta.
  apply (complete_stream_ends
           (Sample.client "ACTIVE"
              (Ok [Chunk (Some "x = "); Chunk (Some ""); Chunk None; Chunk (Some "4")]))
           Sample.json_dumps default_model [] [] []
           [Chunk (Some "x = "); Chunk (Some ""); Chunk None; Chunk (Some "4")]);
    [reflexivity | repeat constructor; eexists; reflexivity].
Defined.

Lemma relay_stops_at_first_exception_witness :
  relay Sample.json_dumps
    ([Chunk (Some "x = 4")] ++ Raises "connection reset" :: [Chunk (Some "lost")]) 0 []
  = relay Sample.json_dumps ([Chunk (Some "x = 4")] ++ [Raises "connection reset"]) 0 [].
Proof.
  apply (relay_stops_at_first_exception Sample.json_dumps [Chunk (Some "x = 4")]
           "connection reset" [Chunk (Some "lost")] 0 []).
  repeat constructor. eexists. reflexivity.
Defined.

Lemma health_reports_key_witness :
  field "api_key_present" (health (Some "AIzaSyExample") "2026-01-01T00:00:00")
    = Some (JBool true).
Proof.
  apply (proj2 (health_reports_key (Some "AIzaSyExample"))
           "AIzaSyExample" "2026-01-01T00:00:00" eq_refl).
Defined.


Lemma board_normal_form_witness :
  Sample.ask_question (Sample.client "ACTIVE" (Ok []))
    (Sample.payload (Text " cbse ") (Text "Define osmosis") []) []
  = Sample.ask_question (Sample.client "ACTIVE" (Ok []))
      (with_board (Text "CBSE")
         (Sample.payload (Text " cbse ") (Text "Define osmosis") [])) [].
Proof.
  apply (board_normal_form (Sample.client "ACTIVE" (Ok []))
           Sample.b64decode Sample.decode_utf8_replace Sample.from_bytes_error Sample.from_uri_error
           (Sample.payload (Text " cbse ") (Text "Define osmosis") []) []).
  decide_member.
Defined.

Lemma rejections_are_400_witness :
  Sample.serve (Sample.client "ACTIVE" (Ok []))
    (Sample.payload (Text "IB") (Text "Define osmosis") []) []
  = (HTTPException 400 "Invalid board", []).
Proof.
  apply (rejections_are_400 (Sample.client "ACTIVE" (Ok [])) Sample.json_dumps
           Sample.b64decode Sample.decode_utf8_replace Sample.from_bytes_error Sample.from_uri_error
           (Sample.payload (Text "IB") (Text "Define osmosis") []) [] 400
           "Invalid board").
  reflexivity.
Defined.
